(** * Verification of the report dashboard UI module ([src/ui.py])

  The module is glue between three things: the filesystem of pre-rendered
  report files, the Streamlit widget layer, and three helpers of
  [src.utils].  The development below embeds

  - the Python primitives the module relies on ([sorted], string and
    [pathlib] path operations, [open], [os.listdir]),
  - a world state (filesystem, trace of filesystem accesses, widget state,
    rendered elements, the [st.cache_data] store) threaded through a
    state-and-exception monad,
  - the Streamlit commands the module calls, and
  - the seven functions of [ui.py], line by line.

  Text is a byte string holding UTF-8; Python compares [str] values by code
  point, and byte-wise comparison of UTF-8 is the same order. *)

From Stdlib Require Import String Ascii Sorted Permutation OrderedTypeEx.
From stdpp Require Import base option list strings gmap sorting.

Open Scope string_scope.

Abbreviation Text := string.

(** ** Python built-ins *)

Module Py.

(** The double quote character, and a piece of text between double quotes
    (for HTML attributes). *)
Definition dq : Text := String (ascii_of_nat 34) EmptyString.

Definition quoted (s : Text) : Text := dq +:+ s +:+ dq.

(** [s.split(sep)] for a one-character separator. *)
Fixpoint split (sep : ascii) (s : Text) : list Text :=
  match s with
  | EmptyString => [EmptyString]
  | String c s' =>
      if Ascii.eqb c sep then EmptyString :: split sep s'
      else match split sep s' with
           | w :: ws => String c w :: ws
           | [] => [String c EmptyString]
           end
  end.

(** [sep.join(l)] *)
Fixpoint join (sep : Text) (l : list Text) : Text :=
  match l with
  | [] => EmptyString
  | [x] => x
  | x :: rest => x +:+ sep +:+ join sep rest
  end.

(** [a < b] on lists: the first differing position decides, a proper
    prefix is smaller. *)
Fixpoint list_ltb (a b : list Text) : bool :=
  match a, b with
  | [], [] => false
  | [], _ :: _ => true
  | _ :: _, [] => false
  | x :: a', y :: b' =>
      if String.eqb x y then list_ltb a' b' else String.ltb x y
  end.

(** [sorted(l)]: a stable sort that only asks [<] of its elements.  The
    element [x] goes in front of the first element that is not smaller
    than it, so equal elements keep their input order. *)
Section Sorted.
Context {A : Type} (ltb : A -> A -> bool).

Fixpoint insert_sorted (x : A) (l : list A) : list A :=
  match l with
  | [] => [x]
  | y :: l' => if ltb y x then y :: insert_sorted x l' else x :: y :: l'
  end.

Fixpoint sorted (l : list A) : list A :=
  match l with
  | [] => []
  | x :: l' => insert_sorted x (sorted l')
  end.
End Sorted.

End Py.

(** ** pathlib (POSIX flavour) *)

Module Pathlib.

(** A pure path after parsing: the root ([""], ["/"] or ["//"]) and the
    components that follow it. *)
Record Path : Type := mkPath { root : Text; names : list Text }.

Definition slash : ascii := ascii_of_nat 47.

(** [posixpath.splitroot]: the root and what follows it. *)
Definition splitroot (p : Text) : Text * Text :=
  match p with
  | String c1 rest1 =>
      if Ascii.eqb c1 slash then
        match rest1 with
        | String c2 rest2 =>
            if Ascii.eqb c2 slash then
              match rest2 with
              | String c3 _ =>
                  if Ascii.eqb c3 slash then ("/", rest1) else ("//", rest2)
              | EmptyString => ("//", rest2)
              end
            else ("/", rest1)
        | EmptyString => ("/", rest1)
        end
      else (EmptyString, p)
  | EmptyString => (EmptyString, p)
  end.

Definition kept (x : Text) : bool :=
  negb (String.eqb x EmptyString) && negb (String.eqb x ".").

(** [Path(s)]: empty components and ["."] are dropped. *)
Definition PurePath (s : Text) : Path :=
  let '(r, rel) := splitroot s in
  mkPath r (List.filter kept (Py.split slash rel)).

(** [p / key] *)
Definition truediv (p : Path) (key : Text) : Path :=
  let other := PurePath key in
  if String.eqb (root other) EmptyString
  then mkPath (root p) (names p ++ names other)
  else other.

(** [p.parts]: the anchor, when there is one, then the components. *)
Definition parts (p : Path) : list Text :=
  if String.eqb (root p) EmptyString then names p else root p :: names p.

(** [str(p)] *)
Definition str (p : Path) : Text :=
  match root p, names p with
  | EmptyString, [] => "."
  | r, ns => r +:+ Py.join "/" ns
  end.

(** [p < q]: paths compare as their [parts]. *)
Definition ltb (p q : Path) : bool := Py.list_ltb (parts p) (parts q).

#[global] Instance Path_eq_dec : EqDecision Path.
Proof. solve_decision. Defined.

#[global] Program Instance Path_countable : Countable Path :=
  inj_countable' (fun p => (root p, names p)) (fun '(r, ns) => mkPath r ns) _.
Next Obligation. by intros []. Qed.

(** What [os.listdir] hands back: a non-empty name without a slash that is
    neither ["."] nor [".."]. *)
Definition valid_name (n : Text) : bool :=
  match Py.split slash n with
  | [w] => kept w && negb (String.eqb w "..")
  | _ => false
  end.

End Pathlib.

Import Pathlib(Path, mkPath, root, names).

Notation "p </> key" := (Pathlib.truediv p key) (at level 40, left associativity).

(** ** Exceptions, values and the world *)

(** The exceptions that can travel through the module.
    [EntityNotFoundError] is the exception class of [src.utils]; it carries
    the message it was constructed with. *)
Inductive encoding : Type := Utf8 | LocaleDefault.

Inductive exn : Type :=
| EntityNotFoundError (msg : Text)
| FileNotFoundError (filename : Path)
| IsADirectoryError (filename : Path)
| NotADirectoryError (filename : Path)
| PermissionError (filename : Path)
| UnicodeDecodeError (codec : encoding)
| UnidentifiedImageError (filename : Text)
| StreamlitAPIException (msg : Text).

Inductive res (A : Type) : Type :=
| Ok (a : A)
| Raise (e : exn).

Arguments Ok {A} a.
Arguments Raise {A} e.

(** A regular file, as far as the module can tell files apart: whether the
    process may open it for reading; what [read()] gives when the file was
    opened with [encoding="utf8"] and when it was opened with the default
    encoding of the locale, each time the whole text or nothing when the
    bytes do not decode; and what PIL makes of it, the image data or nothing
    when it does not identify an image. *)
Record file : Type := mkFile {
  readable : bool;
  text_utf8 : option Text;
  text_locale : option Text;
  picture : option Text
}.

(** What a path names: a regular file, a directory with the names
    [os.listdir] reports for it, in the order it reports them, or a
    directory that the process may neither list nor open. *)
Inductive entry : Type :=
| RegFile (f : file)
| Directory (listing : list Text)
| LockedDirectory.

Inductive open_mode : Type := ModeR | ModeW.

(** One access to the filesystem. *)
Inductive fs_op : Type :=
| Stat (p : Path)
| Listdir (p : Path)
| Open (p : Path) (mode : open_mode).

(** Where an element is drawn: the main page, the sidebar, or the tab of a
    given rank made by [st.tabs] inside another container. *)
Inductive container : Type :=
| Main
| Sidebar
| Tab (parent : container) (i : nat).

#[global] Instance container_eq_dec : EqDecision container.
Proof. solve_decision. Defined.

(** The container [c] of a stored element, moved from the container [old]
    of the call that drew it to the container [new] of the call that draws
    it again. *)
Fixpoint rebase (old new c : container) : container :=
  if decide (c = old) then new
  else match c with
       | Tab parent i => Tab (rebase old new parent) i
       | Main => Main
       | Sidebar => Sidebar
       end.

(** An image opened by PIL: the file it was opened from and its data. *)
Record Image : Type := mkImage { image_filename : Text; image_data : Text }.

(** The elements the module draws, with the arguments it passes. *)
Inductive element : Type :=
| Markdown (body : Text) (unsafe_allow_html : bool)
| Caption (body : Text)
| Header (body : Text)
| Picture (image : Image) (use_container_width : bool)
| Selectbox (label : Text) (shown_options : list Text)
| Tabs (labels : list Text)
| Html (html : Text) (width height : nat) (scrolling : bool).

(** What [display_report] hands back: the list of report texts, or, on its
    last branch, an exception object as a plain value. *)
Inductive display_result : Type :=
| Contents (texts : list Text)
| ErrorValue (e : exn).

(** An entry of the [st.cache_data] store: the value returned, the
    elements drawn while it was computed, and the container the call was
    made in. *)
Record cached : Type := mkCached {
  cached_value : display_result;
  cached_elements : list (container * element);
  cached_container : container
}.

Record world : Type := mkWorld {
  fs : gmap Path entry;                (* the filesystem, seen from the working directory *)
  fs_log : list fs_op;                 (* every access made so far, oldest first *)
  selected : Text -> nat;              (* per select box label: the index the user has picked *)
  blocks : list container;             (* the enclosing [with] blocks, innermost first *)
  ui : list (container * element);     (* the elements drawn so far, oldest first *)
  cache : gmap Path cached             (* the store behind [@st.cache_data] on [display_report] *)
}.

Definition set_fs (f : gmap Path entry) (w : world) : world :=
  mkWorld f (fs_log w) (selected w) (blocks w) (ui w) (cache w).

Definition set_fs_log (l : list fs_op) (w : world) : world :=
  mkWorld (fs w) l (selected w) (blocks w) (ui w) (cache w).

Definition set_blocks (b : list container) (w : world) : world :=
  mkWorld (fs w) (fs_log w) (selected w) b (ui w) (cache w).

Definition set_ui (u : list (container * element)) (w : world) : world :=
  mkWorld (fs w) (fs_log w) (selected w) (blocks w) u (cache w).

Definition set_cache (c : gmap Path cached) (w : world) : world :=
  mkWorld (fs w) (fs_log w) (selected w) (blocks w) (ui w) c.

(** The container that elements are drawn in: the innermost enclosing
    block, the main page outside every block. *)
Definition current (w : world) : container := hd Main (blocks w).

(** The world [w] after some more filesystem accesses and some more drawn
    elements, and nothing else changed. *)
Definition extend (w : world) (ops : list fs_op) (drawn : list (container * element)) : world :=
  mkWorld (fs w) (fs_log w ++ ops) (selected w) (blocks w) (ui w ++ drawn) (cache w).

(** ** The monad: a computation runs in a world and either returns or
    raises; what it did to the world before raising stays done. *)

Definition M (A : Type) : Type := world -> res A * world.

#[global] Instance M_ret : MRet M := fun A a w => (Ok a, w).

#[global] Instance M_bind : MBind M := fun A B f m w =>
  match m w with
  | (Ok a, w') => f a w'
  | (Raise e, w') => (Raise e, w')
  end.

Definition raise {A : Type} (e : exn) : M A := fun w => (Raise e, w).

(** ** os, pathlib and open *)

Definition gets {A : Type} (f : world -> A) : M A := fun w => (Ok (f w), w).

Definition modify (f : world -> world) : M unit := fun w => (Ok tt, f w).

Module Os.

Definition log (op : fs_op) : M unit :=
  modify (fun w => set_fs_log (fs_log w ++ [op]) w).

Definition lookup (p : Path) : M (option entry) := gets (fun w => fs w !! p).

(** [p.is_file()] *)
Definition is_file (p : Path) : M bool :=
  log (Stat p);;
  e ← lookup p;
  mret (match e with Some (RegFile _) => true | _ => false end).

(** [p.is_dir()] *)
Definition is_dir (p : Path) : M bool :=
  log (Stat p);;
  e ← lookup p;
  mret (match e with
        | Some (Directory _) => true
        | Some LockedDirectory => true
        | _ => false
        end).

(** [os.listdir(p)] *)
Definition listdir (p : Path) : M (list Text) :=
  log (Listdir p);;
  e ← lookup p;
  match e with
  | Some (Directory listing) => mret listing
  | Some LockedDirectory => raise (PermissionError p)
  | Some (RegFile _) => raise (NotADirectoryError p)
  | None => raise (FileNotFoundError p)
  end.

(** What [read()] gives for a file opened with the given encoding. *)
Definition decoded (enc : encoding) (f : file) : option Text :=
  match enc with
  | Utf8 => text_utf8 f
  | LocaleDefault => text_locale f
  end.

(** An empty file that has just been written. *)
Definition empty_file : file :=
  mkFile true (Some EmptyString) (Some EmptyString) None.

(** [open(p, mode, encoding=...)] followed by [read()].  With mode ['r']
    (the default): [open] fails on a name that leads nowhere, on a
    directory and on a file the process may not read; [read] fails when the
    bytes do not decode; otherwise the whole text comes back.  Mode ['w']
    creates or empties the file first. *)
Definition open_ (p : Path) (mode : open_mode) (enc : encoding) : M Text :=
  log (Open p mode);;
  e ← lookup p;
  match e, mode with
  | Some (RegFile f), ModeR =>
      if readable f then
        match decoded enc f with
        | Some text => mret text
        | None => raise (UnicodeDecodeError enc)
        end
      else raise (PermissionError p)
  | Some (Directory _), _ => raise (IsADirectoryError p)
  | Some LockedDirectory, _ => raise (PermissionError p)
  | None, ModeR => raise (FileNotFoundError p)
  | _, ModeW =>
      modify (fun w => set_fs (<[p := RegFile empty_file]> (fs w)) w);;
      mret EmptyString
  end.

(** [open(p, "rb")]: the file behind the path, opened for reading bytes. *)
Definition open_binary (p : Path) : M file :=
  log (Open p ModeR);;
  e ← lookup p;
  match e with
  | Some (RegFile f) => if readable f then mret f else raise (PermissionError p)
  | Some (Directory _) => raise (IsADirectoryError p)
  | Some LockedDirectory => raise (PermissionError p)
  | None => raise (FileNotFoundError p)
  end.

End Os.

(** PIL's [Image.open(fp)]: opens the file for reading bytes and identifies
    the image in it; a file that holds no image it knows is refused. *)
Definition Image_open (fp : Text) : M Image :=
  f ← Os.open_binary (Pathlib.PurePath fp);
  match picture f with
  | Some data => mret (mkImage fp data)
  | None => raise (UnidentifiedImageError fp)
  end.

(** ** Streamlit

    The commands of the widget layer that the module calls, as far as the
    module can observe them: which element is drawn where, what a command
    returns, and when it raises. *)

Module St.

Definition here : M container := gets current.

Definition draw_in (c : container) (e : element) : M unit :=
  modify (fun w => set_ui (ui w ++ [(c, e)]) w).

Definition draw (e : element) : M unit := c ← here; draw_in c e.

(** [with c: body]: the block is left when the body returns and when it
    raises. *)
Definition within {A : Type} (c : container) (body : M A) : M A := fun w =>
  let '(r, w') := body (set_blocks (c :: blocks w) w) in
  (r, set_blocks (tail (blocks w')) w').

Definition markdown (body : Text) (unsafe_allow_html : bool) : M unit :=
  draw (Markdown body unsafe_allow_html).

Definition caption (body : Text) : M unit := draw (Caption body).

Definition header (body : Text) : M unit := draw (Header body).

Definition image (img : Image) (use_container_width : bool) : M unit :=
  draw (Picture img use_container_width).

(** [components.html(html, width, height, scrolling)] *)
Definition components_html (html : Text) (width height : nat) (scrolling : bool) : M unit :=
  draw (Html html width height scrolling).

(** [parent.selectbox(label, options, format_func)]: shows the options as
    [format_func] prints them and returns the option the user has picked,
    itself.  The world holds the picked index of each select box; the widget
    itself only ever holds an index inside its options, so a world whose
    index lies outside them stands for no state of the widget, and the call
    is refused there the way Streamlit refuses an [index] argument outside
    the options.  (With no options at all Streamlit returns [None]; the
    selectors of this module raise before they get there.) *)
Definition selectbox (parent : container) (label : Text) (options : list Text)
    (format_func : Text -> Text) : M Text :=
  i ← gets (fun w => selected w label);
  match options !! i with
  | Some option =>
      draw_in parent (Selectbox label (map format_func options));;
      mret option
  | None =>
      raise (StreamlitAPIException
        "Selectbox index must be greater than or equal to 0 and less than the length of options.")
  end.

(** [st.tabs(labels)]: one container per label, in order, inside the
    container the call is made in; an empty list of labels is refused. *)
Definition tabs (labels : list Text) : M (list container) :=
  match labels with
  | [] =>
      raise (StreamlitAPIException
        "The input argument to st.tabs must contain at least one tab label.")
  | _ :: _ =>
      parent ← here;
      draw (Tabs labels);;
      mret (map (Tab parent) (seq 0 (length labels)))
  end.

(** The stored elements of [c], as they are drawn again by a call made in
    the container [cur]. *)
Definition replayed (cur : container) (c : cached) : list (container * element) :=
  map (fun ce => (rebase (cached_container c) cur (fst ce), snd ce)) (cached_elements c).

(** [@st.cache_data] on a function of one path.  A call whose argument is
    in the store returns the stored value and draws the stored elements
    again, in the container the call is made in, without running the
    function; any other call runs the function and, if it returns, stores
    its value and the elements it drew.  The spinner that the decorator
    shows while the function runs belongs to no function of the module and
    is not drawn here. *)
Definition cache_data (f : Path -> M display_result) (arg : Path) : M display_result :=
  hit ← gets (fun w => cache w !! arg);
  match hit with
  | Some c =>
      cur ← here;
      modify (fun w => set_ui (ui w ++ replayed cur c) w);;
      mret (cached_value c)
  | None =>
      cur ← here;
      before ← gets (fun w => length (ui w));
      value ← f arg;
      modify (fun w =>
        set_cache (<[arg := mkCached value (drop before (ui w)) cur]> (cache w)) w);;
      mret value
  end.

End St.

(** ** The module [ui.py] *)

Definition page_style : Text :=
  "
        <style>
            /* Main area styling */
            .main > div {
                max-width: 100%;
                padding: 1rem 2rem;
            }

            /* Tabs styling */
            button[data-baseweb="
  +:+ Py.quoted "tab" +:+
  "] div p {
                font-size: 16px;
                font-weight: 600;
            }

            /* Sidebar styling */
            .css-1d391kg {
                padding: 2rem 1rem;
            }

            /* Selectbox styling */
            .stSelectbox {
                margin-bottom: 1.5rem;
            }

            /* Header styling */
            .stHeader {
                background-color: #f8f9fa;
                padding: 1.5rem;
                border-radius: 0.5rem;
                margin-bottom: 2rem;
            }

            /* Caption styling */
            .stCaption {
                font-size: 1rem;
                color: #6c757d;
                margin-bottom: 0.5rem;
            }

            /* Report container styling */
            .stReport {
                background-color: white;
                border-radius: 0.5rem;
                box-shadow: 0 2px 4px rgba(0,0,0,0.1);
                padding: 1rem;
            }

            /* Sidebar link styling */
            .sidebar-link {
                display: inline-block;
                text-align: center;
                width: 100%;
                padding: 0.75rem;
                margin: 0.5rem 0;
                border-radius: 0.5rem;
                text-decoration: none;
                background-color: #f8f9fa;
                color: #1f2937;
                font-weight: 500;
                transition: all 0.2s ease;
            }

            .sidebar-link:hover {
                background-color: #e5e7eb;
                transform: translateY(-1px);
                box-shadow: 0 2px 4px rgba(0,0,0,0.05);
            }

            /* Logo container styling */
            .logo-container {
                margin-bottom: 2rem;
                padding: 1rem;
                background-color: white;
                border-radius: 0.5rem;
                box-shadow: 0 2px 4px rgba(0,0,0,0.1);
            }
        </style>
    ".

(** [set_page_container_style] *)
Definition set_page_container_style : M unit :=
  St.markdown page_style true.

Definition repo_link : Text :=
  "https://github.com/mnrozhkov/evidently/tree/main/examples/integrations".

Definition evidently_docs : Text := "https://docs.evidentlyai.com/".

Definition sidebar_link (href label : Text) : Text :=
  "<a class=" +:+ Py.quoted "sidebar-link" +:+ " href=" +:+ Py.quoted href
  +:+ " target=" +:+ Py.quoted "_blank" +:+ ">" +:+ label +:+ "</a>".

(** [display_sidebar_header] *)
Definition display_sidebar_header : M unit :=
  logo ← Image_open "static/logo.png";
  St.within Sidebar (
    St.markdown ("<div class=" +:+ Py.quoted "logo-container" +:+ ">") true;;
    St.image logo true;;
    St.markdown "</div>" true;;
    St.markdown (sidebar_link repo_link "📚 Source code") true;;
    St.markdown (sidebar_link evidently_docs "📖 Evidently docs") true;;
    St.markdown "<hr style='margin: 2rem 0;'>" true).

(** [not l] for a list *)
Definition is_empty {A : Type} (l : list A) : bool :=
  match l with [] => true | _ :: _ => false end.

(** [select_project] *)
Definition select_project (projects : list Text) : M Path :=
  if is_empty projects then raise (EntityNotFoundError "🔍 Projects not found")
  else
    selected_project ← St.selectbox Sidebar "💼 Select project" projects id;
    mret (Pathlib.PurePath selected_project).

(** [select_report] *)
Definition select_report (report_names : list Text) : M Text :=
  if is_empty report_names then raise (EntityNotFoundError "🔍 Reports not found")
  else
    selected_report_name ← St.selectbox Sidebar "📈 Select report" report_names id;
    mret selected_report_name.

(** The loop over [zip(tabs, report_parts)] of [display_report]: each part
    is opened and read inside its tab, its text appended to
    [report_contents] and then drawn. *)
Fixpoint read_parts (pairs : list (container * Path)) (report_contents : list Text)
    : M (list Text) :=
  match pairs with
  | [] => mret report_contents
  | (tab, report_part_path) :: rest =>
      report_contents' ← St.within tab (
        report_part_content ← Os.open_ report_part_path ModeR LocaleDefault;
        let report_contents' := (report_contents ++ [report_part_content])%list in
        St.components_html report_part_content 1000 800 true;;
        mret report_contents');
      read_parts rest report_contents'
  end.

Section Ui.

(** The two helpers of [src.utils] that the module calls; their code is not
    part of the module, so the module is read for any two functions. *)
Context (get_report_name : Path -> Text).
Context (period_dir_to_dates_range : Text -> Text).

(** [select_period] *)
Definition select_period (periods : list Text) : M Text :=
  if is_empty periods then raise (EntityNotFoundError "🔍 No periods found")
  else
    selected_period ← St.selectbox Sidebar "📆 Select period" periods period_dir_to_dates_range;
    mret selected_period.

(** [display_header] *)
Definition display_header (project_name period report_name : Text) : M unit :=
  let dates_range := period_dir_to_dates_range period in
  St.markdown ("<div class=" +:+ Py.quoted "stHeader" +:+ ">") true;;
  St.caption ("💼 Project: " +:+ project_name);;
  St.header ("📊 " +:+ report_name);;
  St.caption ("📅 Period: " +:+ dates_range);;
  St.markdown "</div>" true.

(** The body of [display_report], below its decorator. *)
Definition display_report_body (report_path : Path) : M display_result :=
  St.markdown ("<div class=" +:+ Py.quoted "stReport" +:+ ">") true;;
  is_file ← Os.is_file report_path;
  result ← (
    if is_file : bool then
      report ← Os.open_ report_path ModeR Utf8;
      St.components_html report 1000 800 true;;
      mret (Contents [report])
    else
      is_dir ← Os.is_dir report_path;
      if is_dir : bool then
        listing ← Os.listdir report_path;
        let report_parts :=
          Py.sorted Pathlib.ltb (map (fun report_part => report_path </> report_part) listing) in
        let tab_names := map get_report_name report_parts in
        let tab_names_formatted := map (fun name => "📈 " +:+ name) tab_names in
        tabs ← St.tabs tab_names_formatted;
        report_contents ← read_parts (zip tabs report_parts) [];
        mret (Contents report_contents)
      else
        mret (ErrorValue (EntityNotFoundError "🔍 No reports found")));
  St.markdown "</div>" true;;
  mret result.

(** [display_report]: the body under [@st.cache_data]. *)
Definition display_report : Path -> M display_result :=
  St.cache_data display_report_body.

End Ui.

(** ** Stand-ins used by the examples

    A name helper that takes the last component of the path, a date-range
    helper that puts a dash between the two dates of a period directory
    name, and a small report tree. *)

(** A text file that everyone may read and that reads the same with both
    encodings; an image file; a text file that may not be read; a file
    whose bytes are text in the encoding of the locale but not in UTF-8. *)
Definition text_file (content : Text) : file :=
  mkFile true (Some content) (Some content) None.

Definition image_file (data : Text) : file := mkFile true None None (Some data).

Definition secret_file (content : Text) : file :=
  mkFile false (Some content) (Some content) None.

Definition legacy_file (content : Text) : file :=
  mkFile true None (Some content) None.

Definition last_name (p : Path) : Text := List.last (names p) EmptyString.

Definition dash_dates (period : Text) : Text :=
  Py.join " - " (Py.split (ascii_of_nat 95) period).

Definition demo_fs : gmap Path entry :=
  list_to_map [
    (Pathlib.PurePath "static/logo.png", RegFile (image_file "logo pixels"));
    (Pathlib.PurePath "reports/bike/2011-01-29_2011-02-04/data_drift.html",
       RegFile (text_file "<html>drift</html>"));
    (Pathlib.PurePath "reports/bike/2011-01-29_2011-02-04/legacy.html",
       RegFile (legacy_file "<html>legacy</html>"));
    (Pathlib.PurePath "reports/bike/2011-01-29_2011-02-04/model_performance",
       Directory ["target.html"; "Summary.html"; "errors.html"]);
    (Pathlib.PurePath "reports/bike/2011-01-29_2011-02-04/model_performance/target.html",
       RegFile (text_file "<html>target</html>"));
    (Pathlib.PurePath "reports/bike/2011-01-29_2011-02-04/model_performance/Summary.html",
       RegFile (text_file "<html>summary</html>"));
    (Pathlib.PurePath "reports/bike/2011-01-29_2011-02-04/model_performance/errors.html",
       RegFile (text_file "<html>errors</html>"));
    (Pathlib.PurePath "reports/bike/2011-02-05_2011-02-11", Directory ["nested"]);
    (Pathlib.PurePath "reports/bike/2011-02-05_2011-02-11/nested", Directory []);
    (Pathlib.PurePath "reports/bike/2011-02-12_2011-02-18",
       Directory ["c.html"; "a.html"; "b.html"]);
    (Pathlib.PurePath "reports/bike/2011-02-12_2011-02-18/a.html",
       RegFile (text_file "<html>a</html>"));
    (Pathlib.PurePath "reports/bike/2011-02-12_2011-02-18/b.html",
       RegFile (secret_file "<html>b</html>"));
    (Pathlib.PurePath "reports/bike/2011-02-12_2011-02-18/c.html",
       RegFile (text_file "<html>c</html>")) ].

Definition demo_world : world :=
  mkWorld demo_fs [] (fun _ => 0) [] [] ∅.

(** What opening the path [p] for reading with the encoding [enc] and
    reading it gives: the text, or nothing when the open or the read
    fails. *)
Definition read_text (enc : encoding) (w : world) (p : Path) : option Text :=
  match fs w !! p with
  | Some (RegFile f) => if readable f then Os.decoded enc f else None
  | _ => None
  end.

(** Whether the path [p] can be opened and read as text with [enc]: it names
    a regular file that the process may read and whose bytes decode. *)
Definition reads (enc : encoding) (w : world) (p : Path) : bool :=
  match read_text enc w p with Some _ => true | None => false end.

(** The text read from [p] with [enc], for stating what was read. *)
Definition file_text (enc : encoding) (w : world) (p : Path) : Text :=
  default EmptyString (read_text enc w p).

Definition is_regular (w : world) (p : Path) : bool :=
  match fs w !! p with
  | Some (RegFile _) => true
  | _ => false
  end.

Definition is_directory (w : world) (p : Path) : bool :=
  match fs w !! p with
  | Some (Directory _) => true
  | Some LockedDirectory => true
  | _ => false
  end.

(** The lines of text among drawn elements: captions and headings. *)
Definition text_lines (drawn : list (container * element)) : list Text :=
  omap (fun ce => match snd ce with
                  | Caption body => Some body
                  | Header body => Some body
                  | _ => None
                  end) drawn.

(** Ascending order for a [<] test: [b] is not smaller than [a]. *)
Definition not_after {A : Type} (ltb : A -> A -> bool) (a b : A) : Prop :=
  ltb b a = false.

(** Ascending order of names. *)
Definition name_le : Text -> Text -> Prop := not_after String.ltb.

(** A computation that leaves the filesystem as it found it. *)
Definition fs_preserved {A : Type} (m : M A) : Prop :=
  forall w, fs (snd (m w)) = fs w.

(** A computation that makes no access to the filesystem. *)
Definition fs_untouched {A : Type} (m : M A) (w : world) : Prop :=
  fs_log (snd (m w)) = fs_log w /\ fs (snd (m w)) = fs w.

(** The exception [open] raises for a path it cannot open for reading: a
    name that leads nowhere, a directory, or something the process may not
    open. *)
Definition open_error (w : world) (p : Path) : exn :=
  match fs w !! p with
  | None => FileNotFoundError p
  | Some (Directory _) => IsADirectoryError p
  | Some LockedDirectory => PermissionError p
  | Some (RegFile _) => PermissionError p
  end.

(** The exception that opening [p] with [enc] and reading it raises when it
    fails: the one of [open], or the one of [read] for bytes that do not
    decode. *)
Definition read_error (enc : encoding) (w : world) (p : Path) : exn :=
  match fs w !! p with
  | Some (RegFile f) => if readable f then UnicodeDecodeError enc else PermissionError p
  | _ => open_error w p
  end.

(** The names listed in the directory at [p]; none when [p] is no directory. *)
Definition listed (w : world) (p : Path) : list Text :=
  match fs w !! p with
  | Some (Directory listing) => listing
  | _ => []
  end.

(** An access that stays with the report at [p]: a look at [p], a listing of
    [p], a read of [p], or a read of an entry listed in [p]. *)
Definition access_within (w : world) (p : Path) (op : fs_op) : Prop :=
  op = Stat p \/ op = Listdir p \/ op = Open p ModeR \/
  exists n, In n (listed w p) /\ op = Open (p </> n) ModeR.

(** What a run from [w] to [w'] added to the drawn elements and to the trace
    of accesses. *)
Definition new_elements (w w' : world) : list (container * element) :=
  drop (length (ui w)) (ui w').

Definition new_accesses (w w' : world) : list fs_op :=
  drop (length (fs_log w)) (fs_log w').

(** A computation whose whole effect on the world is some more accesses, all
    of them [allowed], and some more drawn elements. *)
Definition effects {A : Type} (allowed : fs_op -> Prop) (m : M A) : Prop :=
  forall w, exists ops drawn,
    snd (m w) = extend w ops drawn /\ Forall allowed ops.

(** A world with an empty filesystem. *)
Definition bare_world : world := mkWorld ∅ [] (fun _ => 0) [] [] ∅.

(** A computation that leaves the enclosing blocks as it found them and
    only appends to the drawn elements and to the trace of accesses. *)
Definition only_appends {A : Type} (m : M A) : Prop :=
  forall w,
    blocks (snd (m w)) = blocks w /\
    ui w `prefix_of` ui (snd (m w)) /\
    fs_log w `prefix_of` fs_log (snd (m w)).

(** The logo that [display_sidebar_header] opens. *)
Definition logo_path : Path := Pathlib.PurePath "static/logo.png".

(** * Facts *)

(** ** Python built-ins *)

Example dash_dates_example :
  dash_dates "2011-01-29_2011-02-04" = "2011-01-29 - 2011-02-04".
Proof. reflexivity. Qed.

Example parse_relative :
  Pathlib.PurePath "reports/./bike//2011-01/"
  = mkPath EmptyString ["reports"; "bike"; "2011-01"].
Proof. reflexivity. Qed.

Example parse_absolute :
  Pathlib.PurePath "///srv/reports" = mkPath "/" ["srv"; "reports"].
Proof. reflexivity. Qed.

Example parse_two_slashes : Pathlib.PurePath "//srv" = mkPath "//" ["srv"].
Proof. reflexivity. Qed.

Example str_of_empty : Pathlib.str (Pathlib.PurePath EmptyString) = ".".
Proof. reflexivity. Qed.

Example truediv_child :
  Pathlib.PurePath "reports/bike" </> "data_drift.html"
  = mkPath EmptyString ["reports"; "bike"; "data_drift.html"].
Proof. reflexivity. Qed.

Example truediv_absolute :
  Pathlib.PurePath "reports/bike" </> "/etc" = mkPath "/" ["etc"].
Proof. reflexivity. Qed.

Example sorted_paths :
  Py.sorted Pathlib.ltb
    (map (Pathlib.truediv (Pathlib.PurePath "r")) ["b.html"; "a.html"; "B.html"])
  = map (Pathlib.truediv (Pathlib.PurePath "r")) ["B.html"; "a.html"; "b.html"].
Proof. reflexivity. Qed.

Section SortedFacts.

Context {A : Type} (ltb : A -> A -> bool).

Lemma insert_sorted_perm (x : A) (l : list A) :
  Permutation (Py.insert_sorted ltb x l) (x :: l).
Proof.
  induction l as [|y l IH]; simpl; [reflexivity|].
  destruct (ltb y x).
  - rewrite IH. apply perm_swap.
  - reflexivity.
Qed.

Lemma sorted_perm (l : list A) : Permutation (Py.sorted ltb l) l.
Proof.
  induction l as [|x l IH]; simpl; [reflexivity|].
  rewrite insert_sorted_perm. by constructor.
Qed.

Lemma sorted_length (l : list A) : length (Py.sorted ltb l) = length l.
Proof. apply Permutation_length, sorted_perm. Qed.

(** With an asymmetric [<], neighbours of the result are in order. *)
Hypothesis ltb_asym : forall a b, ltb a b = true -> ltb b a = false.

Lemma insert_sorted_Sorted (x : A) (l : list A) :
  Sorted (not_after ltb) l -> Sorted (not_after ltb) (Py.insert_sorted ltb x l).
Proof.
  induction l as [|y l IH]; intros Hs; simpl.
  - repeat constructor.
  - destruct (ltb y x) eqn:Hyx.
    + apply Sorted_inv in Hs as [Hs Hhd].
      constructor; [by apply IH|].
      destruct l as [|z l]; simpl.
      * constructor. by apply ltb_asym.
      * destruct (ltb z x); constructor.
        -- by inversion Hhd.
        -- by apply ltb_asym.
    + constructor; [done|]. by constructor.
Qed.

Lemma sorted_Sorted (l : list A) : Sorted (not_after ltb) (Py.sorted ltb l).
Proof.
  induction l as [|x l IH]; simpl; [constructor|].
  by apply insert_sorted_Sorted.
Qed.

End SortedFacts.

(** Sorting commutes with a map that preserves [<] on the elements at hand. *)
Lemma sorted_map {A B : Type} (ltA : A -> A -> bool) (ltB : B -> B -> bool)
    (f : A -> B) (P : A -> Prop) (l : list A) :
  (forall a b, P a -> P b -> ltB (f a) (f b) = ltA a b) ->
  Forall P l ->
  Py.sorted ltB (map f l) = map f (Py.sorted ltA l).
Proof.
  intros Hf. induction 1 as [|x l Hx Hl IH]; simpl; [done|].
  rewrite IH.
  assert (Hs : Forall P (Py.sorted ltA l)).
  { eapply Permutation_Forall; [symmetry; apply sorted_perm | done]. }
  clear IH Hl. induction Hs as [|y s Hy Hs IH]; simpl; [done|].
  rewrite (Hf y x Hy Hx). destruct (ltA y x); simpl; [by rewrite IH | done].
Qed.

(** ** The order of names *)

Lemma string_ltb_lt (a b : Text) : String.ltb a b = true <-> String_as_OT.lt a b.
Proof.
  unfold String.ltb. rewrite <- String_as_OT.cmp_lt. unfold String_as_OT.cmp.
  destruct (String.compare a b); split; congruence.
Qed.

Lemma string_ltb_irrefl (a : Text) : String.ltb a a = false.
Proof.
  destruct (String.ltb a a) eqn:H; [|done].
  apply string_ltb_lt in H. by apply String_as_OT.lt_not_eq in H.
Qed.

Lemma string_ltb_asym (a b : Text) : String.ltb a b = true -> String.ltb b a = false.
Proof.
  intros Hab. destruct (String.ltb b a) eqn:Hba; [|done].
  apply string_ltb_lt in Hab, Hba. exfalso.
  apply (String_as_OT.lt_not_eq a a); [|done].
  by eapply String_as_OT.lt_trans.
Qed.

Lemma string_ltb_false (a b : Text) :
  String.ltb b a = false -> a = b \/ String_as_OT.lt a b.
Proof.
  unfold String.ltb. intros H.
  destruct (String.compare b a) eqn:Hc; [| done |].
  - left. symmetry. by apply String.compare_eq_iff.
  - right. apply String_as_OT.cmp_lt. unfold String_as_OT.cmp.
    rewrite String.compare_antisym, Hc. done.
Qed.

#[local] Instance name_le_trans : Transitive name_le.
Proof.
  intros a b c Hab Hbc. unfold name_le, not_after in *.
  destruct (String.ltb c a) eqn:Hca; [|done].
  apply string_ltb_lt in Hca.
  apply string_ltb_false in Hab as [->|Hab], Hbc as [->|Hbc].
  - by apply String_as_OT.lt_not_eq in Hca.
  - exfalso. apply (String_as_OT.lt_not_eq b b); [|done].
    by eapply String_as_OT.lt_trans.
  - exfalso. apply (String_as_OT.lt_not_eq a a); [|done].
    by eapply String_as_OT.lt_trans.
  - exfalso. apply (String_as_OT.lt_not_eq a a); [|done].
    eapply String_as_OT.lt_trans; [done|]. by eapply String_as_OT.lt_trans.
Qed.

(** [sorted] on names gives an ascending list with the same names. *)
Lemma sorted_names_ascending (l : list Text) :
  StronglySorted name_le (Py.sorted String.ltb l).
Proof.
  apply Sorted_StronglySorted; [apply name_le_trans|].
  apply sorted_Sorted, string_ltb_asym.
Qed.

(** ** Paths of the children of a directory *)

Lemma split_not_nil (sep : ascii) (s : Text) : Py.split sep s <> [].
Proof.
  destruct s as [|c s]; simpl; [done|].
  destruct (Ascii.eqb c sep); [done|]. by destruct (Py.split sep s).
Qed.

Lemma split_single (sep : ascii) (s w : Text) :
  Py.split sep s = [w] ->
  w = s /\ forall c s', s = String c s' -> Ascii.eqb c sep = false.
Proof.
  revert w. induction s as [|c s IH]; intros w; simpl.
  - intros [= <-]. by split.
  - destruct (Ascii.eqb c sep) eqn:Hc.
    + intros [= _ H]. by apply split_not_nil in H.
    + destruct (Py.split sep s) as [|w' ws] eqn:Hs.
      * by apply split_not_nil in Hs.
      * intros [= <- ->]. destruct (IH w' eq_refl) as [-> _].
        split; [done|]. by intros ? ? [= <- <-].
Qed.

Lemma PurePath_valid_name (n : Text) :
  Pathlib.valid_name n = true -> Pathlib.PurePath n = mkPath EmptyString [n].
Proof.
  unfold Pathlib.valid_name, Pathlib.PurePath.
  destruct (Py.split Pathlib.slash n) as [|w [|? ?]] eqn:Hs; [done| |done].
  intros Hk. apply andb_prop in Hk as [Hk _].
  destruct (split_single _ _ _ Hs) as [-> Hc].
  assert (Hroot : Pathlib.splitroot n = (EmptyString, n)).
  { destruct n as [|c n]; [done|]. simpl. by rewrite (Hc c n eq_refl). }
  rewrite Hroot, Hs. simpl. by rewrite Hk.
Qed.

Lemma truediv_valid_name (p : Path) (n : Text) :
  Pathlib.valid_name n = true -> p </> n = mkPath (root p) (names p ++ [n]).
Proof.
  intros Hn. unfold Pathlib.truediv. by rewrite (PurePath_valid_name n Hn).
Qed.

Lemma parts_child (p : Path) (n : Text) :
  Pathlib.valid_name n = true ->
  Pathlib.parts (p </> n) = (Pathlib.parts p ++ [n])%list.
Proof.
  intros Hn. rewrite (truediv_valid_name p n Hn). unfold Pathlib.parts. simpl.
  by destruct (String.eqb (root p) EmptyString).
Qed.

Lemma list_ltb_snoc (k : list Text) (a b : Text) :
  Py.list_ltb (k ++ [a]) (k ++ [b]) = String.ltb a b.
Proof.
  induction k as [|x k IH]; simpl.
  - destruct (String.eqb_spec a b) as [->|]; [|done].
    by rewrite string_ltb_irrefl.
  - by rewrite String.eqb_refl.
Qed.

(** Children of one directory compare as their names. *)
Lemma ltb_children (p : Path) (a b : Text) :
  Pathlib.valid_name a = true -> Pathlib.valid_name b = true ->
  Pathlib.ltb (p </> a) (p </> b) = String.ltb a b.
Proof.
  intros Ha Hb. unfold Pathlib.ltb.
  rewrite (parts_child p a Ha), (parts_child p b Hb). apply list_ltb_snoc.
Qed.

(** Sorting the child paths is sorting the names. *)
Lemma sorted_children (p : Path) (listing : list Text) :
  Forall (fun n => Pathlib.valid_name n = true) listing ->
  Py.sorted Pathlib.ltb (map (fun report_part => p </> report_part) listing)
  = map (fun n => p </> n) (Py.sorted String.ltb listing).
Proof.
  apply (sorted_map String.ltb Pathlib.ltb (fun n => p </> n)).
  intros a b. apply ltb_children.
Qed.

(** ** Running computations *)

Lemma bind_run {A B : Type} (m : M A) (f : A -> M B) (w : world) :
  (m ≫= f) w = match m w with
               | (Ok a, w') => f a w'
               | (Raise e, w') => (Raise e, w')
               end.
Proof. reflexivity. Qed.

Lemma bind_Ok {A B : Type} (m : M A) (f : A -> M B) (w w' : world) (a : A) :
  m w = (Ok a, w') -> (m ≫= f) w = f a w'.
Proof. intros H. by rewrite bind_run, H. Qed.

Lemma bind_Raise {A B : Type} (m : M A) (f : A -> M B) (w w' : world) (e : exn) :
  m w = (Raise e, w') -> (m ≫= f) w = (Raise e, w').
Proof. intros H. by rewrite bind_run, H. Qed.

Lemma extend_nil (w : world) : extend w [] [] = w.
Proof. destruct w. unfold extend. simpl. by rewrite !app_nil_r. Qed.

Lemma extend_extend (w : world) ops1 drawn1 ops2 drawn2 :
  extend (extend w ops1 drawn1) ops2 drawn2
  = extend w (ops1 ++ ops2) (drawn1 ++ drawn2).
Proof. unfold extend. simpl. by rewrite !app_assoc. Qed.

Lemma fs_extend (w : world) ops drawn : fs (extend w ops drawn) = fs w.
Proof. reflexivity. Qed.

Lemma current_extend (w : world) ops drawn : current (extend w ops drawn) = current w.
Proof. reflexivity. Qed.

Lemma draw_run (e : element) (w : world) :
  St.draw e w = (Ok tt, extend w [] [(current w, e)]).
Proof. destruct w. unfold extend. simpl. by rewrite app_nil_r. Qed.

Lemma draw_in_run (c : container) (e : element) (w : world) :
  St.draw_in c e w = (Ok tt, extend w [] [(c, e)]).
Proof. destruct w. unfold extend. simpl. by rewrite app_nil_r. Qed.

Lemma log_run (op : fs_op) (w : world) :
  Os.log op w = (Ok tt, extend w [op] []).
Proof. destruct w. unfold extend. simpl. by rewrite app_nil_r. Qed.

Lemma is_file_run (p : Path) (w : world) :
  Os.is_file p w = (Ok (is_regular w p), extend w [Stat p] []).
Proof.
  unfold Os.is_file. rewrite (bind_Ok _ _ _ _ _ (log_run _ w)). reflexivity.
Qed.

Lemma is_dir_run (p : Path) (w : world) :
  Os.is_dir p w = (Ok (is_directory w p), extend w [Stat p] []).
Proof.
  unfold Os.is_dir. rewrite (bind_Ok _ _ _ _ _ (log_run _ w)). reflexivity.
Qed.

Lemma listdir_run (p : Path) (w : world) (listing : list Text) :
  fs w !! p = Some (Directory listing) ->
  Os.listdir p w = (Ok listing, extend w [Listdir p] []).
Proof.
  intros Hp. unfold Os.listdir. rewrite (bind_Ok _ _ _ _ _ (log_run _ w)).
  rewrite bind_run. unfold Os.lookup, gets. rewrite fs_extend, Hp. reflexivity.
Qed.

Lemma open_read_ok (p : Path) (enc : encoding) (w : world) :
  reads enc w p = true ->
  Os.open_ p ModeR enc w = (Ok (file_text enc w p), extend w [Open p ModeR] []).
Proof.
  unfold reads, file_text, read_text. intros Hp.
  unfold Os.open_. rewrite (bind_Ok _ _ _ _ _ (log_run _ w)).
  rewrite bind_run. unfold Os.lookup, gets. rewrite fs_extend.
  destruct (fs w !! p) as [[f|listing|]|]; try done.
  destruct (readable f); [|done]. by destruct (Os.decoded enc f).
Qed.

Lemma open_read_fails (p : Path) (enc : encoding) (w : world) :
  reads enc w p = false ->
  Os.open_ p ModeR enc w = (Raise (read_error enc w p), extend w [Open p ModeR] []).
Proof.
  unfold reads, read_error, open_error, read_text. intros Hp.
  unfold Os.open_. rewrite (bind_Ok _ _ _ _ _ (log_run _ w)).
  rewrite bind_run. unfold Os.lookup, gets. rewrite fs_extend.
  destruct (fs w !! p) as [[f|listing|]|]; try done.
  destruct (readable f); [|done]. by destruct (Os.decoded enc f).
Qed.

Lemma listdir_locked (p : Path) (w : world) :
  fs w !! p = Some LockedDirectory ->
  Os.listdir p w = (Raise (PermissionError p), extend w [Listdir p] []).
Proof.
  intros Hp. unfold Os.listdir. rewrite (bind_Ok _ _ _ _ _ (log_run _ w)).
  rewrite bind_run. unfold Os.lookup, gets. rewrite fs_extend, Hp. reflexivity.
Qed.

(** A block whose body only extends the world leaves the enclosing blocks
    as they were, whether the body returns or raises. *)
Lemma within_run {A : Type} (c : container) (body : M A) (w : world)
    (r : res A) ops drawn :
  body (set_blocks (c :: blocks w) w) = (r, extend (set_blocks (c :: blocks w) w) ops drawn) ->
  St.within c body w = (r, extend w ops drawn).
Proof.
  intros H. unfold St.within. rewrite H. by destruct w.
Qed.

Lemma tabs_run (labels : list Text) (w : world) :
  labels <> [] ->
  St.tabs labels w
  = (Ok (map (Tab (current w)) (seq 0 (length labels))),
     extend w [] [(current w, Tabs labels)]).
Proof.
  intros Hne. destruct labels as [|l ls]; [done|].
  unfold St.tabs. rewrite bind_run. unfold St.here, gets.
  by rewrite (bind_Ok _ _ _ _ _ (draw_run _ w)).
Qed.

Lemma tabs_empty (w : world) :
  St.tabs [] w
  = (Raise (StreamlitAPIException
      "The input argument to st.tabs must contain at least one tab label."), w).
Proof. reflexivity. Qed.

Lemma markdown_run (body : Text) (unsafe_allow_html : bool) (w : world) :
  St.markdown body unsafe_allow_html w
  = (Ok tt, extend w [] [(current w, Markdown body unsafe_allow_html)]).
Proof. apply draw_run. Qed.

Lemma components_html_run (html : Text) (width height : nat) (scrolling : bool) (w : world) :
  St.components_html html width height scrolling w
  = (Ok tt, extend w [] [(current w, Html html width height scrolling)]).
Proof. apply draw_run. Qed.

(** ** The loop over the report parts *)

Lemma read_parts_cons_ok (tab : container) (q : Path) (rest : list (container * Path))
    (acc : list Text) (w : world) :
  reads LocaleDefault w q = true ->
  read_parts ((tab, q) :: rest) acc w
  = read_parts rest (acc ++ [file_text LocaleDefault w q])%list
      (extend w [Open q ModeR] [(tab, Html (file_text LocaleDefault w q) 1000 800 true)]).
Proof.
  intros Hq. simpl. apply bind_Ok, within_run.
  rewrite (bind_Ok _ _ _ _ _
             (open_read_ok q LocaleDefault (set_blocks (tab :: blocks w) w) Hq)).
  rewrite (bind_Ok _ _ _ _ _ (components_html_run _ _ _ _ _)).
  unfold mret, M_ret. by rewrite extend_extend.
Qed.

Lemma read_parts_cons_raise (tab : container) (q : Path) (rest : list (container * Path))
    (acc : list Text) (w : world) :
  reads LocaleDefault w q = false ->
  read_parts ((tab, q) :: rest) acc w
  = (Raise (read_error LocaleDefault w q), extend w [Open q ModeR] []).
Proof.
  intros Hq. simpl. apply bind_Raise, within_run, bind_Raise.
  by apply (open_read_fails q LocaleDefault (set_blocks (tab :: blocks w) w)).
Qed.

(** What the loop draws: the text of each part, in the tab of its rank. *)
Lemma read_parts_run (c : container) (ps : list Path) (k : nat) (acc : list Text)
    (w : world) :
  Forall (fun q => reads LocaleDefault w q = true) ps ->
  read_parts (zip (map (Tab c) (seq k (length ps))) ps) acc w
  = (Ok (acc ++ map (file_text LocaleDefault w) ps)%list,
     extend w (map (fun q => Open q ModeR) ps)
       (zip_with (fun i q => (Tab c i, Html (file_text LocaleDefault w q) 1000 800 true))
          (seq k (length ps)) ps)).
Proof.
  intros Hall. revert k acc w Hall.
  induction ps as [|q ps IH]; intros k acc w Hall.
  - simpl. unfold mret, M_ret. by rewrite extend_nil, app_nil_r.
  - apply Forall_cons in Hall as [Hq Hps]. simpl length. simpl seq. simpl map. simpl zip.
    rewrite (read_parts_cons_ok (Tab c k) q _ acc w Hq).
    change (Forall (fun q' => reads LocaleDefault (extend w [Open q ModeR]
              [(Tab c k, Html (file_text LocaleDefault w q) 1000 800 true)]) q' = true) ps)
      in Hps.
    rewrite (IH (S k) _ _ Hps), extend_extend, <- app_assoc. reflexivity.
Qed.

(** The loop stops at the first part whose open or read fails. *)
Lemma read_parts_raises (c : container) (ps : list Path) (k : nat) (acc : list Text)
    (w : world) :
  Exists (fun q => reads LocaleDefault w q = false) ps ->
  exists bad w',
    In bad ps /\ reads LocaleDefault w bad = false /\ fs w' = fs w /\
    read_parts (zip (map (Tab c) (seq k (length ps))) ps) acc w
    = (Raise (read_error LocaleDefault w bad), w').
Proof.
  revert k acc w. induction ps as [|q ps IH]; intros k acc w Hex.
  - by apply Exists_nil in Hex.
  - simpl length. simpl seq. simpl map. simpl zip.
    destruct (reads LocaleDefault w q) eqn:Hq.
    + apply Exists_cons in Hex as [Hbad|Hex]; [congruence|].
      rewrite (read_parts_cons_ok (Tab c k) q _ acc w Hq).
      destruct (IH (S k) (acc ++ [file_text LocaleDefault w q])%list
                  (extend w [Open q ModeR]
                     [(Tab c k, Html (file_text LocaleDefault w q) 1000 800 true)]) Hex)
        as (bad & w' & Hin & Hbad & Hfs & Hrun).
      exists bad, w'. by repeat split; [right| | |].
    + exists q, (extend w [Open q ModeR] []). repeat split; [by left|done|].
      by apply read_parts_cons_raise.
Qed.

(** ** The cache *)

Lemma cache_hit (f : Path -> M display_result) (arg : Path) (w : world) (c : cached) :
  cache w !! arg = Some c ->
  St.cache_data f arg w
  = (Ok (cached_value c), extend w [] (St.replayed (current w) c)).
Proof.
  intros Hc. unfold St.cache_data. rewrite bind_run. unfold gets. rewrite Hc.
  rewrite bind_run. unfold St.here, gets. rewrite bind_run. unfold modify, mret, M_ret.
  destruct w. unfold extend. simpl. by rewrite app_nil_r.
Qed.

Lemma cache_miss_returns (f : Path -> M display_result) (arg : Path) (w w' : world)
    (value : display_result) :
  cache w !! arg = None ->
  f arg w = (Ok value, w') ->
  St.cache_data f arg w
  = (Ok value,
     set_cache (<[arg := mkCached value (drop (length (ui w)) (ui w')) (current w)]>
                  (cache w')) w').
Proof.
  intros Hc Hf. unfold St.cache_data. rewrite bind_run. unfold gets. rewrite Hc.
  rewrite bind_run. unfold St.here, gets. rewrite bind_run.
  rewrite bind_run, Hf. reflexivity.
Qed.

Lemma cache_miss_raises (f : Path -> M display_result) (arg : Path) (w w' : world)
    (e : exn) :
  cache w !! arg = None ->
  f arg w = (Raise e, w') ->
  St.cache_data f arg w = (Raise e, w').
Proof.
  intros Hc Hf. unfold St.cache_data. rewrite bind_run. unfold gets. rewrite Hc.
  rewrite bind_run. unfold St.here, gets. rewrite bind_run.
  by rewrite bind_run, Hf.
Qed.

(** Whatever a cached call returns is in the store afterwards. *)
Lemma cache_data_stores (f : Path -> M display_result) (arg : Path) (w w' : world)
    (value : display_result) :
  St.cache_data f arg w = (Ok value, w') ->
  exists c, cache w' !! arg = Some c /\ cached_value c = value.
Proof.
  destruct (cache w !! arg) as [c|] eqn:Hc.
  - rewrite (cache_hit f arg w c Hc). intros [= <- <-]. by exists c.
  - destruct (f arg w) as [[v|e] w1] eqn:Hf.
    + rewrite (cache_miss_returns f arg w w1 v Hc Hf). intros [= <- <-].
      eexists. split; [apply lookup_insert_eq|done].
    + by rewrite (cache_miss_raises f arg w w1 e Hc Hf).
Qed.

(** ** The filesystem is only read *)

Lemma fs_preserved_ret {A : Type} (a : A) : fs_preserved (mret a).
Proof. by intros w. Qed.

Lemma fs_preserved_raise {A : Type} (e : exn) : fs_preserved (@raise A e).
Proof. by intros w. Qed.

Lemma fs_preserved_gets {A : Type} (f : world -> A) : fs_preserved (gets f).
Proof. by intros w. Qed.

Lemma fs_preserved_modify (f : world -> world) :
  (forall w, fs (f w) = fs w) -> fs_preserved (modify f).
Proof. intros Hf w. apply Hf. Qed.

Lemma fs_preserved_bind {A B : Type} (m : M A) (f : A -> M B) :
  fs_preserved m -> (forall a, fs_preserved (f a)) -> fs_preserved (m ≫= f).
Proof.
  intros Hm Hf w. rewrite bind_run. specialize (Hm w).
  destruct (m w) as [[a|e] w']; simpl in *; [|done].
  by rewrite Hf.
Qed.

Lemma fs_preserved_within {A : Type} (c : container) (body : M A) :
  fs_preserved body -> fs_preserved (St.within c body).
Proof.
  intros Hb w. unfold St.within. specialize (Hb (set_blocks (c :: blocks w) w)).
  by destruct (body _) as [r w'].
Qed.

Create HintDb frame.

#[local] Hint Resolve fs_preserved_ret fs_preserved_raise fs_preserved_gets
  fs_preserved_bind fs_preserved_within : frame.

Lemma fs_preserved_log (op : fs_op) : fs_preserved (Os.log op).
Proof. by intros w. Qed.

Lemma fs_preserved_draw_in (c : container) (e : element) : fs_preserved (St.draw_in c e).
Proof. by intros w. Qed.

#[local] Hint Resolve fs_preserved_log fs_preserved_draw_in : frame.

Lemma fs_preserved_draw (e : element) : fs_preserved (St.draw e).
Proof. unfold St.draw, St.here. auto with frame. Qed.

#[local] Hint Resolve fs_preserved_draw : frame.

Lemma fs_preserved_is_file (p : Path) : fs_preserved (Os.is_file p).
Proof. unfold Os.is_file, Os.lookup. auto with frame. Qed.

Lemma fs_preserved_is_dir (p : Path) : fs_preserved (Os.is_dir p).
Proof. unfold Os.is_dir, Os.lookup. auto with frame. Qed.

Lemma fs_preserved_listdir (p : Path) : fs_preserved (Os.listdir p).
Proof.
  unfold Os.listdir, Os.lookup. apply fs_preserved_bind; [auto with frame|].
  intros _. apply fs_preserved_bind; [auto with frame|].
  intros [[f|listing|]|]; auto with frame.
Qed.

(** Opening for reading, which is all the module does, changes nothing. *)
Lemma fs_preserved_open_read (p : Path) (enc : encoding) :
  fs_preserved (Os.open_ p ModeR enc).
Proof.
  unfold Os.open_, Os.lookup. apply fs_preserved_bind; [auto with frame|].
  intros _. apply fs_preserved_bind; [auto with frame|].
  intros [[f|listing|]|]; auto with frame.
  destruct (readable f); [|auto with frame].
  destruct (Os.decoded enc f); auto with frame.
Qed.

Lemma fs_preserved_open_binary (p : Path) : fs_preserved (Os.open_binary p).
Proof.
  unfold Os.open_binary, Os.lookup. apply fs_preserved_bind; [auto with frame|].
  intros _. apply fs_preserved_bind; [auto with frame|].
  intros [[f|listing|]|]; auto with frame.
  destruct (readable f); auto with frame.
Qed.

Lemma fs_preserved_Image_open (fp : Text) : fs_preserved (Image_open fp).
Proof.
  unfold Image_open. apply fs_preserved_bind; [apply fs_preserved_open_binary|].
  intros f. destruct (picture f); auto with frame.
Qed.

#[local] Hint Resolve fs_preserved_is_file fs_preserved_is_dir fs_preserved_listdir
  fs_preserved_open_read fs_preserved_open_binary fs_preserved_Image_open : frame.

(** Opening for writing does change the filesystem: the frame property
    below rests on the mode the module opens its files with. *)
Example open_write_changes_fs :
  fs (snd (Os.open_ (Pathlib.PurePath "static/logo.png") ModeW Utf8 demo_world))
  <> fs demo_world.
Proof.
  intros H.
  assert (Hl : fs (snd (Os.open_ (Pathlib.PurePath "static/logo.png") ModeW Utf8 demo_world))
               !! Pathlib.PurePath "static/logo.png" = Some (RegFile (image_file "logo pixels"))).
  { by rewrite H. }
  vm_compute in Hl. discriminate.
Qed.

Lemma fs_preserved_selectbox (parent : container) (label : Text) (options : list Text)
    (format_func : Text -> Text) :
  fs_preserved (St.selectbox parent label options format_func).
Proof.
  unfold St.selectbox. apply fs_preserved_bind; [auto with frame|].
  intros i. destruct (options !! i); auto with frame.
Qed.

Lemma fs_preserved_tabs (labels : list Text) : fs_preserved (St.tabs labels).
Proof. unfold St.tabs, St.here. destruct labels; auto with frame. Qed.

Lemma fs_preserved_cache_data (f : Path -> M display_result) (arg : Path) :
  (forall p, fs_preserved (f p)) -> fs_preserved (St.cache_data f arg).
Proof.
  intros Hf. unfold St.cache_data. apply fs_preserved_bind; [auto with frame|].
  intros [c|].
  - apply fs_preserved_bind; [unfold St.here; auto with frame|]. intros cur.
    apply fs_preserved_bind; [by apply fs_preserved_modify | auto with frame].
  - apply fs_preserved_bind; [unfold St.here; auto with frame|]. intros cur.
    apply fs_preserved_bind; [auto with frame|]. intros before.
    apply fs_preserved_bind; [apply Hf|]. intros value.
    apply fs_preserved_bind; [by apply fs_preserved_modify | auto with frame].
Qed.

Lemma fs_preserved_read_parts (pairs : list (container * Path)) (acc : list Text) :
  fs_preserved (read_parts pairs acc).
Proof.
  revert acc. induction pairs as [|[tab q] pairs IH]; intros acc; simpl.
  - auto with frame.
  - apply fs_preserved_bind; [|auto].
    unfold St.components_html. auto 6 with frame.
Qed.

#[local] Hint Resolve fs_preserved_selectbox fs_preserved_tabs fs_preserved_read_parts
  : frame.

(** ** The selectors *)

Lemma selectbox_run (parent : container) (label : Text) (options : list Text)
    (format_func : Text -> Text) (w : world) (option : Text) :
  options !! selected w label = Some option ->
  St.selectbox parent label options format_func w
  = (Ok option, extend w [] [(parent, Selectbox label (map format_func options))]).
Proof.
  intros Hsel. unfold St.selectbox. rewrite bind_run. unfold gets. rewrite Hsel.
  by rewrite (bind_Ok _ _ _ _ _ (draw_in_run _ _ _)).
Qed.

Lemma is_empty_lookup {A : Type} (l : list A) (i : nat) (x : A) :
  l !! i = Some x -> is_empty l = false.
Proof. by destruct l. Qed.

Lemma select_project_run (projects : list Text) (w : world) (option : Text) :
  projects !! selected w "💼 Select project" = Some option ->
  select_project projects w
  = (Ok (Pathlib.PurePath option),
     extend w [] [(Sidebar, Selectbox "💼 Select project" projects)]).
Proof.
  intros Hsel. unfold select_project. rewrite (is_empty_lookup _ _ _ Hsel).
  rewrite (bind_Ok _ _ _ _ _ (selectbox_run _ _ _ _ _ _ Hsel)).
  by rewrite map_id.
Qed.

Lemma select_report_run (report_names : list Text) (w : world) (option : Text) :
  report_names !! selected w "📈 Select report" = Some option ->
  select_report report_names w
  = (Ok option, extend w [] [(Sidebar, Selectbox "📈 Select report" report_names)]).
Proof.
  intros Hsel. unfold select_report. rewrite (is_empty_lookup _ _ _ Hsel).
  rewrite (bind_Ok _ _ _ _ _ (selectbox_run _ _ _ _ _ _ Hsel)).
  by rewrite map_id.
Qed.

Lemma select_period_run (format_func : Text -> Text) (periods : list Text) (w : world)
    (option : Text) :
  periods !! selected w "📆 Select period" = Some option ->
  select_period format_func periods w
  = (Ok option,
     extend w [] [(Sidebar, Selectbox "📆 Select period" (map format_func periods))]).
Proof.
  intros Hsel. unfold select_period. rewrite (is_empty_lookup _ _ _ Hsel).
  by rewrite (bind_Ok _ _ _ _ _ (selectbox_run _ _ _ _ _ _ Hsel)).
Qed.

(** C4. On an empty list each of the three selectors raises
    [EntityNotFoundError]; the error carries a message that is not empty,
    and nothing has been drawn or read by then. *)
Theorem selectors_raise_on_empty (period_dir_to_dates_range : Text -> Text) (w : world) :
  (exists msg, msg <> EmptyString /\
     select_project [] w = (Raise (EntityNotFoundError msg), w)) /\
  (exists msg, msg <> EmptyString /\
     select_period period_dir_to_dates_range [] w = (Raise (EntityNotFoundError msg), w)) /\
  (exists msg, msg <> EmptyString /\
     select_report [] w = (Raise (EntityNotFoundError msg), w)).
Proof.
  split; [|split].
  - by exists "🔍 Projects not found".
  - by exists "🔍 No periods found".
  - by exists "🔍 Reports not found".
Qed.

(** C5, as amended.  For a non-empty list of options in which the user has
    an option picked, no selector raises; [select_period] and
    [select_report] return the picked option itself, an element of the
    list, and [select_project] returns the path built from the picked
    option. *)
Theorem selectors_return_the_choice (period_dir_to_dates_range : Text -> Text)
    (options : list Text) (w : world) :
  options <> [] ->
  selected w "💼 Select project" < length options ->
  selected w "📆 Select period" < length options ->
  selected w "📈 Select report" < length options ->
  (exists x, In x options /\ options !! selected w "💼 Select project" = Some x /\
     fst (select_project options w) = Ok (Pathlib.PurePath x)) /\
  (exists x, In x options /\ options !! selected w "📆 Select period" = Some x /\
     fst (select_period period_dir_to_dates_range options w) = Ok x) /\
  (exists x, In x options /\ options !! selected w "📈 Select report" = Some x /\
     fst (select_report options w) = Ok x).
Proof.
  intros _ H1 H2 H3.
  apply lookup_lt_is_Some_2 in H1 as [x1 H1], H2 as [x2 H2], H3 as [x3 H3].
  split; [|split].
  - exists x1. split; [|split; [done|]].
    + apply list_elem_of_In. by eapply list_elem_of_lookup_2.
    + by rewrite (select_project_run _ _ _ H1).
  - exists x2. split; [|split; [done|]].
    + apply list_elem_of_In. by eapply list_elem_of_lookup_2.
    + by rewrite (select_period_run _ _ _ _ H2).
  - exists x3. split; [|split; [done|]].
    + apply list_elem_of_In. by eapply list_elem_of_lookup_2.
    + by rewrite (select_report_run _ _ _ H3).
Qed.

Lemma selectors_return_the_choice_witness :
  (exists x, In x ["bike"; "taxi"] /\ ["bike"; "taxi"] !! 0 = Some x /\
     fst (select_project ["bike"; "taxi"] demo_world) = Ok (Pathlib.PurePath x)) /\
  (exists x, In x ["bike"; "taxi"] /\ ["bike"; "taxi"] !! 0 = Some x /\
     fst (select_period dash_dates ["bike"; "taxi"] demo_world) = Ok x) /\
  (exists x, In x ["bike"; "taxi"] /\ ["bike"; "taxi"] !! 0 = Some x /\
     fst (select_report ["bike"; "taxi"] demo_world) = Ok x).
Proof.
  apply (selectors_return_the_choice dash_dates ["bike"; "taxi"] demo_world);
    [done | simpl; lia | simpl; lia | simpl; lia].
Defined.

(** C5, as stated, fails for [select_project]: what it returns is a path,
    and even the text of that path need not be one of the options. *)
Lemma select_project_result_not_an_option :
  exists p w',
    select_project ["reports/"] demo_world = (Ok p, w') /\
    Pathlib.str p = "reports" /\
    ~ In (Pathlib.str p) ["reports/"].
Proof.
  eexists _, _. split; [reflexivity|]. split; [reflexivity|].
  simpl. intros [H|[]]. discriminate.
Qed.

(** C9. For a non-empty list of periods in which the user has one picked,
    [select_period] returns that period directory name as it stands in the
    list; the date-range formatter only makes the labels shown in the
    select box, and the value returned is the same whatever the formatter. *)
Theorem select_period_returns_directory_name (period_dir_to_dates_range : Text -> Text)
    (periods : list Text) (w : world) :
  periods <> [] ->
  selected w "📆 Select period" < length periods ->
  exists period,
    In period periods /\
    periods !! selected w "📆 Select period" = Some period /\
    select_period period_dir_to_dates_range periods w
    = (Ok period,
       extend w [] [(Sidebar, Selectbox "📆 Select period"
                                (map period_dir_to_dates_range periods))]) /\
    forall other_format : Text -> Text,
      fst (select_period other_format periods w) = Ok period.
Proof.
  intros _ Hsel. apply lookup_lt_is_Some_2 in Hsel as [x Hx].
  exists x. split; [|split; [done|split]].
  - apply list_elem_of_In. by eapply list_elem_of_lookup_2.
  - by apply select_period_run.
  - intros g. by rewrite (select_period_run g _ _ _ Hx).
Qed.

Lemma select_period_returns_directory_name_witness :
  exists period,
    In period ["2011-01-29_2011-02-04"; "2011-02-05_2011-02-11"] /\
    ["2011-01-29_2011-02-04"; "2011-02-05_2011-02-11"] !! 0 = Some period /\
    select_period dash_dates ["2011-01-29_2011-02-04"; "2011-02-05_2011-02-11"] demo_world
    = (Ok period,
       extend demo_world []
         [(Sidebar, Selectbox "📆 Select period"
                      (map dash_dates ["2011-01-29_2011-02-04"; "2011-02-05_2011-02-11"]))]) /\
    forall other_format : Text -> Text,
      fst (select_period other_format
             ["2011-01-29_2011-02-04"; "2011-02-05_2011-02-11"] demo_world) = Ok period.
Proof.
  apply (select_period_returns_directory_name dash_dates
           ["2011-01-29_2011-02-04"; "2011-02-05_2011-02-11"] demo_world);
    [done | simpl; lia].
Defined.

Example select_period_shows_dates :
  select_period dash_dates ["2011-01-29_2011-02-04"; "2011-02-05_2011-02-11"] demo_world
  = (Ok "2011-01-29_2011-02-04",
     extend demo_world []
       [(Sidebar, Selectbox "📆 Select period"
                    ["2011-01-29 - 2011-02-04"; "2011-02-05 - 2011-02-11"])]).
Proof. reflexivity. Qed.

(** ** The header *)

(** C8. For every project name, period and report name, [display_header]
    applies the date-range formatter to the period and draws, between an
    opening and a closing [div], exactly three lines of text: the project
    caption, the report heading and the period caption with the formatted
    range.  It checks nothing and always returns. *)
Theorem display_header_three_lines (period_dir_to_dates_range : Text -> Text)
    (project_name period report_name : Text) (w : world) :
  display_header period_dir_to_dates_range project_name period report_name w
  = (Ok tt,
     extend w []
       [(current w, Markdown ("<div class=" +:+ Py.quoted "stHeader" +:+ ">") true);
        (current w, Caption ("💼 Project: " +:+ project_name));
        (current w, Header ("📊 " +:+ report_name));
        (current w, Caption ("📅 Period: " +:+ period_dir_to_dates_range period));
        (current w, Markdown "</div>" true)]) /\
  text_lines (drop (length (ui w))
                (ui (snd (display_header period_dir_to_dates_range
                            project_name period report_name w))))
  = ["💼 Project: " +:+ project_name;
     "📊 " +:+ report_name;
     "📅 Period: " +:+ period_dir_to_dates_range period].
Proof.
  assert (Hrun : display_header period_dir_to_dates_range project_name period report_name w
    = (Ok tt,
       extend w []
         [(current w, Markdown ("<div class=" +:+ Py.quoted "stHeader" +:+ ">") true);
          (current w, Caption ("💼 Project: " +:+ project_name));
          (current w, Header ("📊 " +:+ report_name));
          (current w, Caption ("📅 Period: " +:+ period_dir_to_dates_range period));
          (current w, Markdown "</div>" true)])).
  { unfold display_header, St.caption, St.header.
    rewrite (bind_Ok _ _ _ _ _ (markdown_run _ _ _)).
    rewrite (bind_Ok _ _ _ _ _ (draw_run _ _)), extend_extend.
    rewrite (bind_Ok _ _ _ _ _ (draw_run _ _)), extend_extend.
    rewrite (bind_Ok _ _ _ _ _ (draw_run _ _)), extend_extend.
    by rewrite markdown_run, extend_extend. }
  split; [done|]. rewrite Hrun. unfold extend. cbn [snd ui].
  by rewrite drop_app_length.
Qed.

Example display_header_example :
  text_lines (ui (snd (display_header dash_dates "bike" "2011-01-29_2011-02-04"
                         "data_drift" demo_world)))
  = ["💼 Project: bike"; "📊 data_drift"; "📅 Period: 2011-01-29 - 2011-02-04"].
Proof. reflexivity. Qed.

(** ** The report *)

Section ReportFacts.

Context (get_report_name : Path -> Text).

(** The file branch, when the open and the read go through. *)
Lemma body_file (p : Path) (w : world) :
  is_regular w p = true ->
  reads Utf8 w p = true ->
  display_report_body get_report_name p w
  = (Ok (Contents [file_text Utf8 w p]),
     extend w [Stat p; Open p ModeR]
       [(current w, Markdown ("<div class=" +:+ Py.quoted "stReport" +:+ ">") true);
        (current w, Html (file_text Utf8 w p) 1000 800 true);
        (current w, Markdown "</div>" true)]).
Proof.
  intros Hp Hr. unfold display_report_body.
  rewrite (bind_Ok _ _ _ _ _ (markdown_run _ _ _)).
  rewrite (bind_Ok _ _ _ _ _ (is_file_run _ _)), extend_extend.
  change (is_regular (extend w [] _) p) with (is_regular w p). rewrite Hp.
  rewrite (bind_Ok _ _ _ (extend w [Stat p; Open p ModeR]
    [(current w, Markdown ("<div class=" +:+ Py.quoted "stReport" +:+ ">") true);
     (current w, Html (file_text Utf8 w p) 1000 800 true)])
    (Contents [file_text Utf8 w p])).
  - by rewrite (bind_Ok _ _ _ _ _ (markdown_run _ _ _)), extend_extend.
  - match goal with
    | |- context [(Os.open_ p ModeR Utf8 ≫= _) ?w0] =>
        rewrite (bind_Ok _ _ _ _ _ (open_read_ok p Utf8 w0 Hr)), extend_extend
    end.
    by rewrite (bind_Ok _ _ _ _ _ (components_html_run _ _ _ _ _)), extend_extend.
Qed.

(** The file branch, when the open or the read fails: the exception leaves
    the function after the opening [div]. *)
Lemma body_file_fails (p : Path) (w : world) :
  is_regular w p = true ->
  reads Utf8 w p = false ->
  display_report_body get_report_name p w
  = (Raise (read_error Utf8 w p),
     extend w [Stat p; Open p ModeR]
       [(current w, Markdown ("<div class=" +:+ Py.quoted "stReport" +:+ ">") true)]).
Proof.
  intros Hp Hr. unfold display_report_body.
  rewrite (bind_Ok _ _ _ _ _ (markdown_run _ _ _)).
  rewrite (bind_Ok _ _ _ _ _ (is_file_run _ _)), extend_extend.
  change (is_regular (extend w [] _) p) with (is_regular w p). rewrite Hp.
  rewrite (bind_Raise _ _ _ (extend w [Stat p; Open p ModeR]
    [(current w, Markdown ("<div class=" +:+ Py.quoted "stReport" +:+ ">") true)])
    (read_error Utf8 w p)); [done|].
  match goal with
  | |- context [(Os.open_ p ModeR Utf8 ≫= _) ?w0] =>
      rewrite (bind_Raise _ _ _ _ _ (open_read_fails p Utf8 w0 Hr)), extend_extend
  end.
  reflexivity.
Qed.

(** The last branch: the path names nothing. *)
Lemma body_missing (p : Path) (w : world) :
  fs w !! p = None ->
  display_report_body get_report_name p w
  = (Ok (ErrorValue (EntityNotFoundError "🔍 No reports found")),
     extend w [Stat p; Stat p]
       [(current w, Markdown ("<div class=" +:+ Py.quoted "stReport" +:+ ">") true);
        (current w, Markdown "</div>" true)]).
Proof.
  intros Hp. unfold display_report_body.
  rewrite (bind_Ok _ _ _ _ _ (markdown_run _ _ _)).
  rewrite (bind_Ok _ _ _ _ _ (is_file_run _ _)), extend_extend.
  replace (is_regular (extend w [] _) p) with false
    by (unfold is_regular; rewrite fs_extend, Hp; done).
  rewrite (bind_Ok _ _ _ (extend w [Stat p; Stat p]
    [(current w, Markdown ("<div class=" +:+ Py.quoted "stReport" +:+ ">") true)])
    (ErrorValue (EntityNotFoundError "🔍 No reports found"))).
  - by rewrite (bind_Ok _ _ _ _ _ (markdown_run _ _ _)), extend_extend.
  - rewrite (bind_Ok _ _ _ _ _ (is_dir_run _ _)), extend_extend.
    replace (is_directory (extend w _ _) p) with false
      by (unfold is_directory; rewrite fs_extend, Hp; done).
    reflexivity.
Qed.

(** A directory that may not be listed: [os.listdir] raises. *)
Lemma body_locked_directory (p : Path) (w : world) :
  fs w !! p = Some LockedDirectory ->
  display_report_body get_report_name p w
  = (Raise (PermissionError p),
     extend w [Stat p; Stat p; Listdir p]
       [(current w, Markdown ("<div class=" +:+ Py.quoted "stReport" +:+ ">") true)]).
Proof.
  intros Hp. unfold display_report_body.
  rewrite (bind_Ok _ _ _ _ _ (markdown_run _ _ _)).
  rewrite (bind_Ok _ _ _ _ _ (is_file_run _ _)), extend_extend.
  replace (is_regular (extend w [] _) p) with false
    by (unfold is_regular; rewrite fs_extend, Hp; done).
  rewrite (bind_Raise _ _ _ (extend w [Stat p; Stat p; Listdir p]
    [(current w, Markdown ("<div class=" +:+ Py.quoted "stReport" +:+ ">") true)])
    (PermissionError p)); [done|].
  rewrite (bind_Ok _ _ _ _ _ (is_dir_run _ _)), extend_extend.
  replace (is_directory (extend w _ _) p) with true
    by (unfold is_directory; rewrite fs_extend, Hp; done).
  match goal with
  | |- context [(Os.listdir p ≫= _) ?w0] =>
      rewrite (bind_Raise _ _ _ _ _ (listdir_locked p w0 Hp)), extend_extend
  end.
  reflexivity.
Qed.

(** The directory branch up to the loop: three accesses, the opening [div]
    and the tabs; then the loop runs on the sorted child paths. *)
Lemma body_directory_prefix (p : Path) (w : world) (listing : list Text) :
  fs w !! p = Some (Directory listing) ->
  let report_parts :=
    Py.sorted Pathlib.ltb (map (fun report_part => p </> report_part) listing) in
  let labels := map (fun name => "📈 " +:+ name) (map get_report_name report_parts) in
  let opening := (current w, Markdown ("<div class=" +:+ Py.quoted "stReport" +:+ ">") true) in
  display_report_body get_report_name p w
  = match St.tabs labels (extend w [Stat p; Stat p; Listdir p] [opening]) with
    | (Ok tabs, w1) =>
        match read_parts (zip tabs report_parts) [] w1 with
        | (Ok report_contents, w2) =>
            (Ok (Contents report_contents),
             extend w2 [] [(current w2, Markdown "</div>" true)])
        | (Raise e, w2) => (Raise e, w2)
        end
    | (Raise e, w1) => (Raise e, w1)
    end.
Proof.
  intros Hp report_parts labels opening. unfold display_report_body.
  rewrite (bind_Ok _ _ _ _ _ (markdown_run _ _ _)).
  rewrite (bind_Ok _ _ _ _ _ (is_file_run _ _)), extend_extend.
  replace (is_regular (extend w [] _) p) with false
    by (unfold is_regular; rewrite fs_extend, Hp; done).
  rewrite (bind_run (Os.is_dir p ≫= _)).
  rewrite (bind_Ok _ _ _ _ _ (is_dir_run _ _)), extend_extend.
  replace (is_directory (extend w _ _) p) with true
    by (unfold is_directory; rewrite fs_extend, Hp; done).
  match goal with
  | |- context [(Os.listdir p ≫= _) ?w0] =>
      rewrite (bind_Ok _ _ _ _ _ (listdir_run p w0 listing Hp)), extend_extend
  end.
  rewrite (bind_run (St.tabs _)). fold report_parts. fold labels.
  simpl app. fold opening.
  destruct (St.tabs labels _) as [[tabs|e] w1]; [|done].
  rewrite (bind_run (read_parts _ _)).
  destruct (read_parts _ _ w1) as [[report_contents|e] w2]; [|done].
  unfold mret at 1, M_ret at 1. cbv beta iota.
  by rewrite (bind_Ok _ _ _ _ _ (markdown_run _ _ _)).
Qed.

(** A directory with at least one entry, every entry a regular file that
    can be read as text with the encoding of the locale: the texts come back
    in ascending order of file name, one tab label per file is made from
    [get_report_name] of the child path, and each text is drawn in the tab
    of its rank. *)
Theorem display_report_directory (p : Path) (w : world) (listing : list Text) :
  fs w !! p = Some (Directory listing) ->
  listing <> [] ->
  Forall (fun n => Pathlib.valid_name n = true) listing ->
  Forall (fun n => reads LocaleDefault w (p </> n) = true) listing ->
  exists sorted_names : list Text,
    Permutation sorted_names listing /\
    StronglySorted name_le sorted_names /\
    let report_parts := map (fun n => p </> n) sorted_names in
    let labels := map (fun q => "📈 " +:+ get_report_name q) report_parts in
    length report_parts = length listing /\
    length labels = length listing /\
    display_report_body get_report_name p w
    = (Ok (Contents (map (file_text LocaleDefault w) report_parts)),
       extend w
         ([Stat p; Stat p; Listdir p] ++ map (fun q => Open q ModeR) report_parts)
         ([(current w, Markdown ("<div class=" +:+ Py.quoted "stReport" +:+ ">") true);
           (current w, Tabs labels)]
          ++ zip_with (fun i q => (Tab (current w) i,
                                   Html (file_text LocaleDefault w q) 1000 800 true))
               (seq 0 (length report_parts)) report_parts
          ++ [(current w, Markdown "</div>" true)])).
Proof.
  intros Hp Hne Hvalid Hreg.
  exists (Py.sorted String.ltb listing).
  split; [apply sorted_perm|]. split; [apply sorted_names_ascending|].
  intros report_parts labels.
  assert (Hlen : length report_parts = length listing).
  { unfold report_parts. by rewrite length_map, sorted_length. }
  assert (Hlabels : length labels = length report_parts).
  { unfold labels. by rewrite length_map. }
  split; [done|]. split; [congruence|].
  rewrite (body_directory_prefix p w listing Hp). cbv zeta.
  rewrite (sorted_children p listing Hvalid). fold report_parts.
  rewrite map_map. fold labels.
  rewrite tabs_run.
  2:{ intros Hnil. destruct listing; [done|].
      rewrite Hnil in Hlabels. simpl in Hlen. rewrite Hlen in Hlabels. done. }
  rewrite extend_extend, Hlabels.
  rewrite read_parts_run.
  2:{ unfold report_parts. apply Forall_map.
      eapply Permutation_Forall; [symmetry; apply sorted_perm|]. done. }
  rewrite extend_extend, extend_extend. simpl app.
  rewrite app_nil_r. reflexivity.
Qed.

(** A directory with an entry that cannot be opened and read: the loop
    raises when it comes to the first such entry. *)
Theorem display_report_directory_raises (p : Path) (w : world) (listing : list Text) :
  fs w !! p = Some (Directory listing) ->
  Forall (fun n => Pathlib.valid_name n = true) listing ->
  Exists (fun n => reads LocaleDefault w (p </> n) = false) listing ->
  exists n w',
    In n listing /\ reads LocaleDefault w (p </> n) = false /\
    display_report_body get_report_name p w
    = (Raise (read_error LocaleDefault w (p </> n)), w').
Proof.
  intros Hp Hvalid Hbad.
  rewrite (body_directory_prefix p w listing Hp). cbv zeta.
  rewrite (sorted_children p listing Hvalid), !map_map.
  set (sorted_names := Py.sorted String.ltb listing).
  set (report_parts := map (fun n => p </> n) sorted_names).
  set (labels := map (fun n => "📈 " +:+ get_report_name (p </> n)) sorted_names).
  assert (Hlabels : length labels = length report_parts).
  { unfold labels, report_parts. by rewrite !length_map. }
  assert (Hne : labels <> []).
  { intros Hnil. rewrite Hnil in Hlabels. unfold report_parts, sorted_names in Hlabels.
    rewrite length_map, sorted_length in Hlabels.
    destruct listing; [by apply Exists_nil in Hbad | done]. }
  rewrite (tabs_run labels _ Hne), extend_extend, Hlabels.
  match goal with |- context [read_parts (zip (map (Tab ?c) _) _) _ ?w1] =>
    set (w1' := w1); set (c' := c) end.
  destruct (read_parts_raises c' report_parts 0 [] w1') as (bad & w' & Hin & Hb & _ & Hrun).
  { unfold report_parts. apply Exists_exists.
    apply Exists_exists in Hbad as (n & Hn & Hnb).
    exists (p </> n). split; [|done].
    apply list_elem_of_fmap. exists n. split; [done|].
    unfold sorted_names. by rewrite (sorted_perm String.ltb listing). }
  rewrite Hrun.
  apply list_elem_of_In, list_elem_of_fmap in Hin as (n & -> & Hn).
  exists n, w'. split; [|done].
  apply list_elem_of_In. unfold sorted_names in Hn.
  by rewrite (sorted_perm String.ltb listing) in Hn.
Qed.

(** An empty directory: the list of tab labels is empty, [st.tabs] refuses
    it, and the exception leaves [display_report] before anything is
    returned or stored. *)
Lemma body_empty_directory (p : Path) (w : world) :
  fs w !! p = Some (Directory []) ->
  display_report_body get_report_name p w
  = (Raise (StreamlitAPIException
       "The input argument to st.tabs must contain at least one tab label."),
     extend w [Stat p; Stat p; Listdir p]
       [(current w, Markdown ("<div class=" +:+ Py.quoted "stReport" +:+ ">") true)]).
Proof.
  intros Hp. by rewrite (body_directory_prefix p w [] Hp).
Qed.

Lemma fs_preserved_body (p : Path) : fs_preserved (display_report_body get_report_name p).
Proof.
  unfold display_report_body, St.markdown, St.components_html.
  apply fs_preserved_bind; [auto with frame|]. intros _.
  apply fs_preserved_bind; [auto with frame|]. intros is_file.
  apply fs_preserved_bind; [|auto with frame].
  destruct is_file; [auto 6 with frame|].
  apply fs_preserved_bind; [auto with frame|]. intros is_dir.
  destruct is_dir; auto 8 with frame.
Qed.

End ReportFacts.

(** C1, at the input where the code leaves it.  The report path is an
    existing directory with no entries: [display_report] builds an empty
    list of tab labels, [st.tabs] refuses it, and the call raises instead of
    returning the empty list of contents. *)
Theorem display_report_empty_directory_raises (get_report_name : Path -> Text)
    (p : Path) (w : world) :
  fs w !! p = Some (Directory []) ->
  cache w !! p = None ->
  display_report get_report_name p w
  = (Raise (StreamlitAPIException
       "The input argument to st.tabs must contain at least one tab label."),
     extend w [Stat p; Stat p; Listdir p]
       [(current w, Markdown ("<div class=" +:+ Py.quoted "stReport" +:+ ">") true)]).
Proof.
  intros Hp Hc. unfold display_report.
  apply cache_miss_raises; [done|]. by apply body_empty_directory.
Qed.

Lemma display_report_empty_directory_raises_witness :
  display_report last_name
    (Pathlib.PurePath "reports/bike/2011-02-05_2011-02-11/nested") demo_world
  = (Raise (StreamlitAPIException
       "The input argument to st.tabs must contain at least one tab label."),
     extend demo_world
       [Stat (Pathlib.PurePath "reports/bike/2011-02-05_2011-02-11/nested");
        Stat (Pathlib.PurePath "reports/bike/2011-02-05_2011-02-11/nested");
        Listdir (Pathlib.PurePath "reports/bike/2011-02-05_2011-02-11/nested")]
       [(current demo_world,
         Markdown ("<div class=" +:+ Py.quoted "stReport" +:+ ">") true)]).
Proof.
  apply (display_report_empty_directory_raises last_name
           (Pathlib.PurePath "reports/bike/2011-02-05_2011-02-11/nested") demo_world);
    reflexivity.
Defined.

(** C2, amended.  When the report path names a regular file that can be
    read and whose bytes decode as UTF-8, the body of [display_report]
    returns a list with one element, the whole text of that file, after one
    look at the path and one open; so does the decorated function on a call
    that is not served from the store, and a call that is served from the
    store returns the stored value. *)
Theorem display_report_single_file (get_report_name : Path -> Text)
    (p : Path) (w : world) (f : file) (content : Text) :
  fs w !! p = Some (RegFile f) ->
  readable f = true ->
  text_utf8 f = Some content ->
  display_report_body get_report_name p w
  = (Ok (Contents [content]),
     extend w [Stat p; Open p ModeR]
       [(current w, Markdown ("<div class=" +:+ Py.quoted "stReport" +:+ ">") true);
        (current w, Html content 1000 800 true);
        (current w, Markdown "</div>" true)]) /\
  (cache w !! p = None ->
   fst (display_report get_report_name p w) = Ok (Contents [content])) /\
  (forall c, cache w !! p = Some c ->
   fst (display_report get_report_name p w) = Ok (cached_value c)).
Proof.
  intros Hp Hr Ht.
  assert (Hreg : is_regular w p = true) by (unfold is_regular; by rewrite Hp).
  assert (Hreads : reads Utf8 w p = true).
  { unfold reads, read_text. rewrite Hp, Hr. simpl. by rewrite Ht. }
  assert (Htext : file_text Utf8 w p = content).
  { unfold file_text, read_text. rewrite Hp, Hr. simpl. by rewrite Ht. }
  pose proof (body_file get_report_name p w Hreg Hreads) as Hbody.
  rewrite Htext in Hbody.
  split; [done|]. unfold display_report. split.
  - intros Hc. by rewrite (cache_miss_returns _ _ _ _ _ Hc Hbody).
  - intros c Hc. by rewrite (cache_hit _ _ _ _ Hc).
Qed.

Lemma display_report_single_file_witness :
  display_report_body last_name
    (Pathlib.PurePath "reports/bike/2011-01-29_2011-02-04/data_drift.html") demo_world
  = (Ok (Contents ["<html>drift</html>"]),
     extend demo_world
       [Stat (Pathlib.PurePath "reports/bike/2011-01-29_2011-02-04/data_drift.html");
        Open (Pathlib.PurePath "reports/bike/2011-01-29_2011-02-04/data_drift.html") ModeR]
       [(current demo_world,
         Markdown ("<div class=" +:+ Py.quoted "stReport" +:+ ">") true);
        (current demo_world, Html "<html>drift</html>" 1000 800 true);
        (current demo_world, Markdown "</div>" true)]) /\
  (cache demo_world
     !! Pathlib.PurePath "reports/bike/2011-01-29_2011-02-04/data_drift.html" = None ->
   fst (display_report last_name
          (Pathlib.PurePath "reports/bike/2011-01-29_2011-02-04/data_drift.html")
          demo_world)
   = Ok (Contents ["<html>drift</html>"])) /\
  (forall c,
   cache demo_world
     !! Pathlib.PurePath "reports/bike/2011-01-29_2011-02-04/data_drift.html" = Some c ->
   fst (display_report last_name
          (Pathlib.PurePath "reports/bike/2011-01-29_2011-02-04/data_drift.html")
          demo_world)
   = Ok (cached_value c)).
Proof.
  apply (display_report_single_file last_name
           (Pathlib.PurePath "reports/bike/2011-01-29_2011-02-04/data_drift.html")
           demo_world (text_file "<html>drift</html>") "<html>drift</html>");
    reflexivity.
Defined.

(** C2, as stated, fails in two ways.  A report that was asked for before it
    existed: the path now names a regular file with its text, and
    [display_report] still returns the stored error value, not the list with
    the text.  And a regular file whose bytes are not UTF-8: the call raises
    [UnicodeDecodeError] and returns nothing. *)
Lemma display_report_file_without_its_text :
  let late := Pathlib.PurePath "reports/bike/later.html" in
  let w1 := snd (display_report last_name late demo_world) in
  let w2 := set_fs (<[late := RegFile (text_file "<html>late</html>")]> (fs w1)) w1 in
  let legacy := Pathlib.PurePath "reports/bike/2011-01-29_2011-02-04/legacy.html" in
  (fs w2 !! late = Some (RegFile (text_file "<html>late</html>")) /\
   fst (display_report last_name late w2)
   = Ok (ErrorValue (EntityNotFoundError "🔍 No reports found")) /\
   fst (display_report last_name late w2) <> Ok (Contents ["<html>late</html>"])) /\
  (fs demo_world !! legacy = Some (RegFile (legacy_file "<html>legacy</html>")) /\
   fst (display_report last_name legacy demo_world) = Raise (UnicodeDecodeError Utf8)).
Proof.
  cbv zeta. repeat apply conj; try (vm_compute; reflexivity).
  vm_compute. discriminate.
Qed.




(** C6. Once [display_report] has returned for a path, a later call with
    the same path, made while the store still holds that entry, returns the
    same value and makes no access to the filesystem, whatever has become
    of the files in between. *)
Theorem display_report_cached_result (get_report_name : Path -> Text)
    (p : Path) (w w2 : world) (value : display_result) :
  fst (display_report get_report_name p w) = Ok value ->
  cache w2 !! p = cache (snd (display_report get_report_name p w)) !! p ->
  fst (display_report get_report_name p w2) = Ok value /\
  fs_untouched (display_report get_report_name p) w2.
Proof.
  unfold display_report.
  destruct (St.cache_data (display_report_body get_report_name) p w) as [r w1] eqn:Hfirst.
  simpl. intros -> Hsame.
  destruct (cache_data_stores _ _ _ _ _ Hfirst) as (c & Hc & Hv).
  rewrite <- Hsame in Hc.
  unfold fs_untouched. rewrite (cache_hit _ p w2 c Hc), Hv.
  unfold extend. simpl. by rewrite app_nil_r.
Qed.

Lemma display_report_cached_result_witness :
  fst (display_report last_name
         (Pathlib.PurePath "reports/bike/2011-01-29_2011-02-04/data_drift.html")
         (snd (display_report last_name
                 (Pathlib.PurePath "reports/bike/2011-01-29_2011-02-04/data_drift.html")
                 demo_world)))
  = Ok (Contents ["<html>drift</html>"]) /\
  fs_untouched
    (display_report last_name
       (Pathlib.PurePath "reports/bike/2011-01-29_2011-02-04/data_drift.html"))
    (snd (display_report last_name
            (Pathlib.PurePath "reports/bike/2011-01-29_2011-02-04/data_drift.html")
            demo_world)).
Proof.
  apply (display_report_cached_result last_name
           (Pathlib.PurePath "reports/bike/2011-01-29_2011-02-04/data_drift.html")
           demo_world
           (snd (display_report last_name
                   (Pathlib.PurePath "reports/bike/2011-01-29_2011-02-04/data_drift.html")
                   demo_world))
           (Contents ["<html>drift</html>"]));
    [vm_compute; reflexivity | reflexivity].
Defined.

(** The other side of the cache: when the file is replaced after the first
    call, the second call still returns the old text. *)
Example display_report_stale :
  let p := Pathlib.PurePath "reports/bike/2011-01-29_2011-02-04/data_drift.html" in
  let w1 := snd (display_report last_name p demo_world) in
  let w2 := set_fs (<[p := RegFile (text_file "<html>new</html>")]> (fs w1)) w1 in
  fst (display_report last_name p w2) = Ok (Contents ["<html>drift</html>"]) /\
  fst (display_report_body last_name p w2) = Ok (Contents ["<html>new</html>"]).
Proof. split; vm_compute; reflexivity. Qed.

(** C7. No function of the module creates, changes or removes anything in
    the filesystem: for every input and every world, the filesystem after
    the call is the filesystem before it, whether the call returns or
    raises. *)
Theorem module_only_reads (get_report_name : Path -> Text)
    (period_dir_to_dates_range : Text -> Text) :
  fs_preserved set_page_container_style /\
  fs_preserved display_sidebar_header /\
  (forall projects, fs_preserved (select_project projects)) /\
  (forall periods, fs_preserved (select_period period_dir_to_dates_range periods)) /\
  (forall report_names, fs_preserved (select_report report_names)) /\
  (forall project_name period report_name,
     fs_preserved (display_header period_dir_to_dates_range project_name period report_name)) /\
  (forall report_path, fs_preserved (display_report get_report_name report_path)).
Proof.
  repeat apply conj.
  - unfold set_page_container_style, St.markdown. auto with frame.
  - unfold display_sidebar_header, St.markdown, St.image. auto 10 with frame.
  - intros projects. unfold select_project. destruct (is_empty projects); auto with frame.
  - intros periods. unfold select_period. destruct (is_empty periods); auto with frame.
  - intros names. unfold select_report. destruct (is_empty names); auto with frame.
  - intros project_name period report_name.
    unfold display_header, St.markdown, St.caption, St.header. auto 8 with frame.
  - intros report_path. unfold display_report.
    apply fs_preserved_cache_data. apply fs_preserved_body.
Qed.

Example display_sidebar_header_example :
  display_sidebar_header demo_world
  = (Ok tt,
     extend demo_world [Open (Pathlib.PurePath "static/logo.png") ModeR]
       [(Sidebar, Markdown ("<div class=" +:+ Py.quoted "logo-container" +:+ ">") true);
        (Sidebar, Picture (mkImage "static/logo.png" "logo pixels") true);
        (Sidebar, Markdown "</div>" true);
        (Sidebar, Markdown (sidebar_link repo_link "📚 Source code") true);
        (Sidebar, Markdown (sidebar_link evidently_docs "📖 Evidently docs") true);
        (Sidebar, Markdown "<hr style='margin: 2rem 0;'>" true)]).
Proof. reflexivity. Qed.

(** X16. For a directory with at least one entry, the directory branch
    completes exactly when every entry can be opened and read as text with
    the encoding of the locale: when it is a regular file that the process
    may read and whose bytes decode. *)
Theorem display_report_directory_completes_iff (get_report_name : Path -> Text)
    (p : Path) (w : world) (listing : list Text) :
  fs w !! p = Some (Directory listing) ->
  listing <> [] ->
  Forall (fun n => Pathlib.valid_name n = true) listing ->
  (exists value w', display_report_body get_report_name p w = (Ok value, w'))
  <-> Forall (fun n => reads LocaleDefault w (p </> n) = true) listing.
Proof.
  intros Hp Hne Hvalid. split.
  - intros (value & w' & Hrun).
    destruct (decide (Forall (fun n => reads LocaleDefault w (p </> n) = true) listing))
      as [|Hnot]; [done|].
    apply not_Forall_Exists in Hnot; [|apply _].
    destruct (display_report_directory_raises get_report_name p w listing Hp Hvalid)
      as (n & w'' & _ & _ & Hraise).
    { eapply Exists_impl; [exact Hnot|]. intros n Hn. simpl in Hn.
      by destruct (reads LocaleDefault w (p </> n)). }
    congruence.
  - intros Hreg.
    destruct (display_report_directory get_report_name p w listing Hp Hne Hvalid Hreg)
      as (sorted_names & _ & _ & Hrun).
    cbv zeta in Hrun. destruct Hrun as (_ & _ & Hrun). eauto.
Qed.

Lemma display_report_directory_completes_iff_witness :
  (exists value w',
     display_report_body last_name
       (Pathlib.PurePath "reports/bike/2011-02-12_2011-02-18")
       demo_world = (Ok value, w'))
  <-> Forall (fun n => reads LocaleDefault demo_world
                (Pathlib.PurePath "reports/bike/2011-02-12_2011-02-18" </> n) = true)
        ["c.html"; "a.html"; "b.html"].
Proof.
  apply (display_report_directory_completes_iff last_name
           (Pathlib.PurePath "reports/bike/2011-02-12_2011-02-18")
           demo_world ["c.html"; "a.html"; "b.html"]);
    [reflexivity | done | by repeat constructor].
Defined.

(** Both sides of the equivalence in the report tree of the examples: a
    directory whose parts all read, and one with a part that may not be
    read. *)
Example display_report_directory_completes_examples :
  Forall (fun n => reads LocaleDefault demo_world
            (Pathlib.PurePath "reports/bike/2011-01-29_2011-02-04/model_performance"
             </> n) = true)
    ["target.html"; "Summary.html"; "errors.html"] /\
  ~ Forall (fun n => reads LocaleDefault demo_world
              (Pathlib.PurePath "reports/bike/2011-02-12_2011-02-18" </> n) = true)
      ["c.html"; "a.html"; "b.html"] /\
  fst (display_report_body last_name
         (Pathlib.PurePath "reports/bike/2011-02-12_2011-02-18") demo_world)
  = Raise (PermissionError
             (Pathlib.PurePath "reports/bike/2011-02-12_2011-02-18" </> "b.html")).
Proof.
  split; [by repeat constructor|]. split; [|vm_compute; reflexivity].
  intros H. apply Forall_cons in H as [_ H]. apply Forall_cons in H as [_ H].
  apply Forall_cons in H as [H _]. vm_compute in H. discriminate.
Qed.

(** C10, at the input where the code leaves it.  The report path is an
    existing directory with no entries: every entry is a regular file, there
    being none, and still the directory branch raises, at [st.tabs], before
    it opens anything. *)
Theorem empty_directory_branch_raises (get_report_name : Path -> Text)
    (p : Path) (w : world) (listing : list Text) :
  fs w !! p = Some (Directory listing) ->
  listing = [] ->
  Forall (fun n => is_regular w (p </> n) = true) listing /\
  (exists e w', display_report_body get_report_name p w = (Raise e, w')) /\
  fs_log (snd (display_report_body get_report_name p w))
  = (fs_log w ++ [Stat p; Stat p; Listdir p])%list.
Proof.
  intros Hp ->. split; [constructor|].
  rewrite (body_empty_directory get_report_name p w Hp).
  split; [eauto|done].
Qed.

Lemma empty_directory_branch_raises_witness :
  Forall (fun n => is_regular demo_world
            (Pathlib.PurePath "reports/bike/2011-02-05_2011-02-11/nested" </> n) = true) [] /\
  (exists e w',
     display_report_body last_name
       (Pathlib.PurePath "reports/bike/2011-02-05_2011-02-11/nested") demo_world
     = (Raise e, w')) /\
  fs_log (snd (display_report_body last_name
                 (Pathlib.PurePath "reports/bike/2011-02-05_2011-02-11/nested")
                 demo_world))
  = (fs_log demo_world
     ++ [Stat (Pathlib.PurePath "reports/bike/2011-02-05_2011-02-11/nested");
         Stat (Pathlib.PurePath "reports/bike/2011-02-05_2011-02-11/nested");
         Listdir (Pathlib.PurePath "reports/bike/2011-02-05_2011-02-11/nested")])%list.
Proof.
  apply (empty_directory_branch_raises last_name
           (Pathlib.PurePath "reports/bike/2011-02-05_2011-02-11/nested") demo_world []);
    reflexivity.
Defined.

(** The report tree of the examples: a directory of three parts comes back
    in the order of the names, capitals first. *)
Example display_report_directory_example :
  let p := Pathlib.PurePath "reports/bike/2011-01-29_2011-02-04/model_performance" in
  let w' := snd (display_report_body last_name p demo_world) in
  fst (display_report_body last_name p demo_world)
  = Ok (Contents ["<html>summary</html>"; "<html>errors</html>"; "<html>target</html>"]) /\
  ui w'
  = [(Main, Markdown ("<div class=" +:+ Py.quoted "stReport" +:+ ">") true);
     (Main, Tabs ["📈 Summary.html"; "📈 errors.html"; "📈 target.html"]);
     (Tab Main 0, Html "<html>summary</html>" 1000 800 true);
     (Tab Main 1, Html "<html>errors</html>" 1000 800 true);
     (Tab Main 2, Html "<html>target</html>" 1000 800 true);
     (Main, Markdown "</div>" true)] /\
  fs_log w'
  = [Stat p; Stat p; Listdir p;
     Open (p </> "Summary.html") ModeR;
     Open (p </> "errors.html") ModeR;
     Open (p </> "target.html") ModeR].
Proof. repeat apply conj; vm_compute; reflexivity. Qed.

(** A directory whose only entry is itself a directory. *)
Example display_report_nested_directory_example :
  let p := Pathlib.PurePath "reports/bike/2011-02-05_2011-02-11" in
  fst (display_report last_name p demo_world) = Raise (IsADirectoryError (p </> "nested")).
Proof. vm_compute. reflexivity. Qed.

(** * More on the module *)

(** ** The loop, one part at a time *)

(** Whatever its outcome, the loop only opens paths it was given, for
    reading, and only draws HTML frames. *)
Lemma read_parts_effects (pairs : list (container * Path)) (acc : list Text) (w : world) :
  exists ops drawn,
    snd (read_parts pairs acc w) = extend w ops drawn /\
    Forall (fun op => exists q, In q (map snd pairs) /\ op = Open q ModeR) ops /\
    Forall (fun ce => exists html, snd ce = Html html 1000 800 true) drawn.
Proof.
  revert acc w. induction pairs as [|[tab q] pairs IH]; intros acc w.
  - exists [], []. by rewrite extend_nil.
  - destruct (reads LocaleDefault w q) eqn:Hq.
    + rewrite (read_parts_cons_ok tab q pairs acc w Hq).
      destruct (IH (acc ++ [file_text LocaleDefault w q])%list
                  (extend w [Open q ModeR]
                     [(tab, Html (file_text LocaleDefault w q) 1000 800 true)]))
        as (ops & drawn & -> & Hops & Hdrawn).
      eexists _, _. rewrite extend_extend. split; [done|]. split.
      * apply Forall_app. split.
        -- repeat constructor. exists q. split; [by left|done].
        -- eapply Forall_impl; [exact Hops|].
           intros op (q' & Hin & ->). exists q'. split; [by right|done].
      * apply Forall_app. split; [|done]. repeat constructor. by eexists.
    + rewrite (read_parts_cons_raise tab q pairs acc w Hq).
      exists [Open q ModeR], []. split; [done|]. split; [|constructor].
      repeat constructor. exists q. split; [by left|done].
Qed.

(** When the loop raises, it is for a part whose open or read fails. *)
Lemma read_parts_raise_inv (pairs : list (container * Path)) (acc : list Text)
    (w w' : world) (e : exn) :
  read_parts pairs acc w = (Raise e, w') ->
  exists q, In q (map snd pairs) /\ reads LocaleDefault w q = false /\
            e = read_error LocaleDefault w q.
Proof.
  revert acc w. induction pairs as [|[tab q] pairs IH]; intros acc w.
  - discriminate.
  - destruct (reads LocaleDefault w q) eqn:Hq.
    + rewrite (read_parts_cons_ok tab q pairs acc w Hq). intros Hrun.
      destruct (IH _ _ Hrun) as (q' & Hin & Hbad & ->).
      exists q'. split; [by right|]. by split.
    + rewrite (read_parts_cons_raise tab q pairs acc w Hq). intros [= <- _].
      exists q. split; [by left|]. by split.
Qed.

(** The loop stops at the first part whose open or read fails, having drawn
    the parts before it. *)
Lemma read_parts_first_bad (good rest : list (container * Path)) (tab : container)
    (bad : Path) (acc : list Text) (w : world) :
  Forall (fun q => reads LocaleDefault w q = true) (map snd good) ->
  reads LocaleDefault w bad = false ->
  read_parts (good ++ (tab, bad) :: rest) acc w
  = (Raise (read_error LocaleDefault w bad),
     extend w (map (fun q => Open q ModeR) (map snd good ++ [bad])%list)
       (map (fun tq => (fst tq, Html (file_text LocaleDefault w (snd tq)) 1000 800 true))
          good)).
Proof.
  revert acc w. induction good as [|[t q] good IH]; intros acc w Hgood Hbad.
  - simpl app. by rewrite (read_parts_cons_raise tab bad rest acc w Hbad).
  - simpl in Hgood. apply Forall_cons in Hgood as [Hq Hgood]. simpl app.
    rewrite (read_parts_cons_ok t q _ acc w Hq).
    rewrite (IH _ (extend w [Open q ModeR]
                     [(t, Html (file_text LocaleDefault w q) 1000 800 true)])
               Hgood Hbad).
    by rewrite extend_extend.
Qed.

(** What the loop returns or raises depends on the filesystem only through
    the paths it is given. *)
Lemma read_parts_fst_agree (pairs : list (container * Path)) (acc : list Text)
    (w w' : world) :
  (forall q, In q (map snd pairs) -> fs w !! q = fs w' !! q) ->
  fst (read_parts pairs acc w) = fst (read_parts pairs acc w').
Proof.
  revert acc w w'. induction pairs as [|[tab q] pairs IH]; intros acc w w' Hsame.
  - done.
  - assert (Hq : fs w !! q = fs w' !! q) by (apply Hsame; by left).
    assert (Hreg : reads LocaleDefault w' q = reads LocaleDefault w q)
      by (unfold reads, read_text; by rewrite Hq).
    assert (Htext : file_text LocaleDefault w' q = file_text LocaleDefault w q)
      by (unfold file_text, read_text; by rewrite Hq).
    assert (Herr : read_error LocaleDefault w' q = read_error LocaleDefault w q)
      by (unfold read_error, open_error; by rewrite Hq).
    destruct (reads LocaleDefault w q) eqn:Hwq.
    + rewrite (read_parts_cons_ok tab q pairs acc w Hwq).
      rewrite (read_parts_cons_ok tab q pairs acc w' Hreg), Htext.
      apply IH. intros q' Hin. apply Hsame. by right.
    + rewrite (read_parts_cons_raise tab q pairs acc w Hwq).
      rewrite (read_parts_cons_raise tab q pairs acc w' Hreg). simpl. by rewrite Herr.
Qed.

(** ** What a run adds to the world *)

Lemma new_elements_extend (w : world) ops drawn :
  new_elements w (extend w ops drawn) = drawn.
Proof. unfold new_elements, extend. simpl. by rewrite drop_app_length. Qed.

Lemma new_accesses_extend (w : world) ops drawn :
  new_accesses w (extend w ops drawn) = ops.
Proof. unfold new_accesses, extend. simpl. by rewrite drop_app_length. Qed.

Lemma effects_weaken {A : Type} (P Q : fs_op -> Prop) (m : M A) :
  (forall op, P op -> Q op) -> effects P m -> effects Q m.
Proof.
  intros HPQ Hm w. destruct (Hm w) as (ops & drawn & Hs & Hops).
  exists ops, drawn. split; [done|]. by eapply Forall_impl.
Qed.

Lemma effects_ret {A : Type} (P : fs_op -> Prop) (a : A) : effects P (mret a).
Proof. intros w. exists [], []. by rewrite extend_nil. Qed.

Lemma effects_raise {A : Type} (P : fs_op -> Prop) (e : exn) : effects P (@raise A e).
Proof. intros w. exists [], []. by rewrite extend_nil. Qed.

Lemma effects_gets {A : Type} (P : fs_op -> Prop) (f : world -> A) : effects P (gets f).
Proof. intros w. exists [], []. by rewrite extend_nil. Qed.

Lemma effects_bind {A B : Type} (P : fs_op -> Prop) (m : M A) (f : A -> M B) :
  effects P m -> (forall a, effects P (f a)) -> effects P (m ≫= f).
Proof.
  intros Hm Hf w. destruct (Hm w) as (ops & drawn & Hs & Hops).
  rewrite bind_run. destruct (m w) as [[a|e] w1]; simpl in Hs; subst w1.
  - destruct (Hf a (extend w ops drawn)) as (ops2 & drawn2 & -> & Hops2).
    exists (ops ++ ops2)%list, (drawn ++ drawn2)%list. rewrite extend_extend.
    split; [done|]. by apply Forall_app.
  - by exists ops, drawn.
Qed.

Lemma effects_within {A : Type} (P : fs_op -> Prop) (c : container) (body : M A) :
  effects P body -> effects P (St.within c body).
Proof.
  intros Hb w. destruct (Hb (set_blocks (c :: blocks w) w)) as (ops & drawn & Hs & Hops).
  exists ops, drawn. split; [|done]. unfold St.within.
  destruct (body _) as [r w']. simpl in *. subst w'. by destruct w.
Qed.

Lemma effects_log (P : fs_op -> Prop) (op : fs_op) : P op -> effects P (Os.log op).
Proof.
  intros Hop w. exists [op], []. rewrite log_run. split; [done|]. by repeat constructor.
Qed.

Lemma effects_draw_in (P : fs_op -> Prop) (c : container) (e : element) :
  effects P (St.draw_in c e).
Proof. intros w. exists [], [(c, e)]. by rewrite draw_in_run. Qed.

Lemma effects_draw (P : fs_op -> Prop) (e : element) : effects P (St.draw e).
Proof. intros w. exists [], [(current w, e)]. by rewrite draw_run. Qed.

Create HintDb effects.

#[local] Hint Resolve effects_ret effects_raise effects_gets effects_bind effects_within
  effects_draw_in effects_draw : effects.

Lemma effects_is_file (P : fs_op -> Prop) (p : Path) :
  P (Stat p) -> effects P (Os.is_file p).
Proof. intros Hp. unfold Os.is_file, Os.lookup. auto using effects_log with effects. Qed.

Lemma effects_is_dir (P : fs_op -> Prop) (p : Path) :
  P (Stat p) -> effects P (Os.is_dir p).
Proof. intros Hp. unfold Os.is_dir, Os.lookup. auto using effects_log with effects. Qed.

Lemma effects_listdir (P : fs_op -> Prop) (p : Path) :
  P (Listdir p) -> effects P (Os.listdir p).
Proof.
  intros Hp. unfold Os.listdir, Os.lookup.
  apply effects_bind; [by apply effects_log|]. intros _.
  apply effects_bind; [auto with effects|].
  intros [[f|listing|]|]; auto with effects.
Qed.

Lemma effects_open_read (P : fs_op -> Prop) (p : Path) (enc : encoding) :
  P (Open p ModeR) -> effects P (Os.open_ p ModeR enc).
Proof.
  intros Hp. unfold Os.open_, Os.lookup.
  apply effects_bind; [by apply effects_log|]. intros _.
  apply effects_bind; [auto with effects|].
  intros [[f|listing|]|]; auto with effects.
  destruct (readable f); [|auto with effects].
  destruct (Os.decoded enc f); auto with effects.
Qed.

Lemma effects_Image_open (P : fs_op -> Prop) (fp : Text) :
  P (Open (Pathlib.PurePath fp) ModeR) -> effects P (Image_open fp).
Proof.
  intros Hp. unfold Image_open, Os.open_binary, Os.lookup.
  apply effects_bind.
  - apply effects_bind; [by apply effects_log|]. intros _.
    apply effects_bind; [auto with effects|].
    intros [[f|listing|]|]; auto with effects.
    destruct (readable f); auto with effects.
  - intros f. destruct (picture f); auto with effects.
Qed.

Lemma effects_selectbox (P : fs_op -> Prop) (parent : container) (label : Text)
    (options : list Text) (format_func : Text -> Text) :
  effects P (St.selectbox parent label options format_func).
Proof.
  unfold St.selectbox. apply effects_bind; [auto with effects|].
  intros i. destruct (options !! i); auto with effects.
Qed.

Lemma effects_tabs (P : fs_op -> Prop) (labels : list Text) : effects P (St.tabs labels).
Proof. unfold St.tabs, St.here. destruct labels; auto with effects. Qed.

Lemma effects_read_parts (pairs : list (container * Path)) (acc : list Text) :
  effects (fun _ => True) (read_parts pairs acc).
Proof.
  intros w. destruct (read_parts_effects pairs acc w) as (ops & drawn & Hs & _ & _).
  exists ops, drawn. split; [done|]. by apply Forall_forall.
Qed.

#[local] Hint Resolve effects_selectbox effects_tabs effects_read_parts : effects.

(** The body of [display_report] only adds accesses and drawn elements: it
    leaves the store, the blocks and the widget state alone. *)
Lemma effects_body (get_report_name : Path -> Text) (p : Path) :
  effects (fun _ => True) (display_report_body get_report_name p).
Proof.
  unfold display_report_body, St.markdown, St.components_html.
  apply effects_bind; [auto with effects|]. intros _.
  apply effects_bind; [by apply effects_is_file|]. intros is_file.
  apply effects_bind; [|auto with effects].
  destruct is_file.
  - apply effects_bind; [by apply effects_open_read|]. auto with effects.
  - apply effects_bind; [by apply effects_is_dir|]. intros is_dir.
    destruct is_dir; [|auto with effects].
    apply effects_bind; [by apply effects_listdir|]. auto 6 with effects.
Qed.

(** The three ways a cached call can go. *)
Lemma cache_data_cases (f : Path -> M display_result) (arg : Path) (w : world) :
  (exists c, cache w !! arg = Some c /\
     St.cache_data f arg w
     = (Ok (cached_value c), extend w [] (St.replayed (current w) c))) \/
  (cache w !! arg = None /\ exists value w',
     f arg w = (Ok value, w') /\
     St.cache_data f arg w
     = (Ok value,
        set_cache (<[arg := mkCached value (drop (length (ui w)) (ui w')) (current w)]>
                     (cache w')) w')) \/
  (cache w !! arg = None /\ exists e w',
     f arg w = (Raise e, w') /\ St.cache_data f arg w = (Raise e, w')).
Proof.
  destruct (cache w !! arg) as [c|] eqn:Hc.
  - left. exists c. split; [done|]. by apply cache_hit.
  - right. destruct (f arg w) as [[value|e] w'] eqn:Hf.
    + left. split; [done|]. exists value, w'. split; [done|]. by apply cache_miss_returns.
    + right. split; [done|]. exists e, w'. split; [done|]. by apply cache_miss_raises.
Qed.

(** The directory branch once the tabs are made. *)
Lemma body_nonempty_directory (get_report_name : Path -> Text) (p : Path) (w : world)
    (listing : list Text) :
  fs w !! p = Some (Directory listing) ->
  listing <> [] ->
  let report_parts :=
    Py.sorted Pathlib.ltb (map (fun report_part => p </> report_part) listing) in
  let labels := map (fun q => "📈 " +:+ get_report_name q) report_parts in
  display_report_body get_report_name p w
  = match read_parts (zip (map (Tab (current w)) (seq 0 (length report_parts))) report_parts)
            []
            (extend w [Stat p; Stat p; Listdir p]
               [(current w, Markdown ("<div class=" +:+ Py.quoted "stReport" +:+ ">") true);
                (current w, Tabs labels)]) with
    | (Ok report_contents, w2) =>
        (Ok (Contents report_contents),
         extend w2 [] [(current w2, Markdown "</div>" true)])
    | (Raise e, w2) => (Raise e, w2)
    end.
Proof.
  intros Hp Hne report_parts labels.
  rewrite (body_directory_prefix get_report_name p w listing Hp). cbv zeta.
  rewrite map_map. fold report_parts. fold labels.
  assert (Hlen : length labels = length report_parts).
  { unfold labels. by rewrite length_map. }
  rewrite tabs_run.
  - by rewrite extend_extend, Hlen.
  - intros Hnil. rewrite Hnil in Hlen. unfold report_parts in Hlen.
    rewrite sorted_length, length_map in Hlen. by destruct listing.
Qed.

(** ** More on the order of the parts *)

#[local] Instance name_le_antisym : AntiSymm (=) name_le.
Proof.
  intros a b Hab Hba. unfold name_le, not_after in *.
  apply string_ltb_false in Hab as [->|Hab]; [done|].
  apply string_ltb_false in Hba as [->|Hba]; [done|].
  exfalso. apply (String_as_OT.lt_not_eq a a); [|done].
  by eapply String_as_OT.lt_trans.
Qed.

(** [sorted] gives the same list for every order of the same names. *)
Lemma sorted_names_of_permutation (l1 l2 : list Text) :
  Permutation l1 l2 -> Py.sorted String.ltb l1 = Py.sorted String.ltb l2.
Proof.
  intros Hperm. apply (StronglySorted_unique name_le).
  - apply sorted_names_ascending.
  - apply sorted_names_ascending.
  - by rewrite !sorted_perm.
Qed.

Lemma truediv_ne (p : Path) (n : Text) :
  Pathlib.valid_name n = true -> p </> n <> p.
Proof.
  intros Hn. rewrite (truediv_valid_name p n Hn). destruct p as [r ns]. simpl.
  intros [= Hns]. apply (f_equal length) in Hns. rewrite length_app in Hns.
  simpl in Hns. lia.
Qed.

Lemma zip_tabs_app (c : container) (k : nat) (g : list Path) (b : Path) (r : list Path) :
  zip (map (Tab c) (seq k (length (g ++ b :: r)))) (g ++ b :: r)
  = (zip (map (Tab c) (seq k (length g))) g
     ++ (Tab c (k + length g), b)
        :: zip (map (Tab c) (seq (S (k + length g)) (length r))) r)%list.
Proof.
  revert k. induction g as [|x g IH]; intros k; simpl.
  - by rewrite Nat.add_0_r.
  - f_equal. rewrite (IH (S k)). simpl. by rewrite Nat.add_succ_r.
Qed.

Lemma snd_zip_tabs (c : container) (k : nat) (g : list Path) :
  map snd (zip (map (Tab c) (seq k (length g))) g) = g.
Proof.
  revert k. induction g as [|x g IH]; intros k; simpl; [done|]. by rewrite IH.
Qed.

Lemma drawn_parts_zip (w : world) (c : container) (p : Path) (k : nat) (ns : list Text) :
  map (fun tq => (fst tq, Html (file_text LocaleDefault w (snd tq)) 1000 800 true))
    (zip (map (Tab c) (seq k (length (map (fun n => p </> n) ns))))
       (map (fun n => p </> n) ns))
  = zip_with (fun i n => (Tab c i, Html (file_text LocaleDefault w (p </> n)) 1000 800 true))
      (seq k (length ns)) ns.
Proof.
  revert k. induction ns as [|n ns IH]; intros k; simpl; [done|]. by rewrite IH.
Qed.

(** X1. A directory with at least one entry, every entry a regular file
    that the process may read and whose bytes decode in the encoding of the
    locale, and a path not yet in the store: [display_report] returns the
    texts in ascending order of file name and stores that list; it opens
    each part once in that order; and its body draws the tabs labelled from
    [get_report_name] of each part and each text in the tab of its rank. *)
Theorem display_report_parts_in_name_order (get_report_name : Path -> Text)
    (p : Path) (w : world) (listing : list Text) :
  fs w !! p = Some (Directory listing) ->
  listing <> [] ->
  Forall (fun n => Pathlib.valid_name n = true) listing ->
  Forall (fun n => reads LocaleDefault w (p </> n) = true) listing ->
  cache w !! p = None ->
  let sorted_names := Py.sorted String.ltb listing in
  let report_parts := map (fun n => p </> n) sorted_names in
  let texts := map (file_text LocaleDefault w) report_parts in
  let w' := snd (display_report get_report_name p w) in
  StronglySorted name_le sorted_names /\
  Permutation sorted_names listing /\
  fst (display_report get_report_name p w) = Ok (Contents texts) /\
  cached_value <$> cache w' !! p = Some (Contents texts) /\
  new_accesses w w'
  = ([Stat p; Stat p; Listdir p] ++ map (fun q => Open q ModeR) report_parts)%list /\
  new_elements w (snd (display_report_body get_report_name p w))
  = ([(current w, Markdown ("<div class=" +:+ Py.quoted "stReport" +:+ ">") true);
      (current w, Tabs (map (fun q => "📈 " +:+ get_report_name q) report_parts))]
     ++ zip_with (fun i q => (Tab (current w) i,
                              Html (file_text LocaleDefault w q) 1000 800 true))
          (seq 0 (length report_parts)) report_parts
     ++ [(current w, Markdown "</div>" true)])%list.
Proof.
  intros Hp Hne Hvalid Hreg Hc sorted_names report_parts texts.
  assert (Hbody : display_report_body get_report_name p w
    = (Ok (Contents texts),
       extend w
         ([Stat p; Stat p; Listdir p] ++ map (fun q => Open q ModeR) report_parts)
         ([(current w, Markdown ("<div class=" +:+ Py.quoted "stReport" +:+ ">") true);
           (current w, Tabs (map (fun q => "📈 " +:+ get_report_name q) report_parts))]
          ++ zip_with (fun i q => (Tab (current w) i,
                                   Html (file_text LocaleDefault w q) 1000 800 true))
               (seq 0 (length report_parts)) report_parts
          ++ [(current w, Markdown "</div>" true)]))).
  { rewrite (body_nonempty_directory get_report_name p w listing Hp Hne). cbv zeta.
    rewrite (sorted_children p listing Hvalid). fold sorted_names. fold report_parts.
    rewrite read_parts_run.
    - rewrite !extend_extend. simpl app. rewrite app_nil_r. reflexivity.
    - unfold report_parts. apply Forall_map.
      eapply Permutation_Forall; [symmetry; apply sorted_perm|]. done. }
  unfold display_report. rewrite (cache_miss_returns _ _ _ _ _ Hc Hbody).
  cbv zeta. cbn [fst snd]. rewrite Hbody. cbn [snd].
  split; [apply sorted_names_ascending|]. split; [apply sorted_perm|].
  split; [done|].
  split; [cbn [cache set_cache]; by rewrite lookup_insert_eq|].
  split; [apply new_accesses_extend | apply new_elements_extend].
Qed.

Lemma display_report_parts_in_name_order_witness :
  let p := Pathlib.PurePath "reports/bike/2011-01-29_2011-02-04/model_performance" in
  let listing := ["target.html"; "Summary.html"; "errors.html"] in
  let sorted_names := Py.sorted String.ltb listing in
  let report_parts := map (fun n => p </> n) sorted_names in
  let texts := map (file_text LocaleDefault demo_world) report_parts in
  let w' := snd (display_report last_name p demo_world) in
  StronglySorted name_le sorted_names /\
  Permutation sorted_names listing /\
  fst (display_report last_name p demo_world) = Ok (Contents texts) /\
  cached_value <$> cache w' !! p = Some (Contents texts) /\
  new_accesses demo_world w'
  = ([Stat p; Stat p; Listdir p] ++ map (fun q => Open q ModeR) report_parts)%list /\
  new_elements demo_world (snd (display_report_body last_name p demo_world))
  = ([(current demo_world, Markdown ("<div class=" +:+ Py.quoted "stReport" +:+ ">") true);
      (current demo_world, Tabs (map (fun q => "📈 " +:+ last_name q) report_parts))]
     ++ zip_with (fun i q => (Tab (current demo_world) i,
                              Html (file_text LocaleDefault demo_world q) 1000 800 true))
          (seq 0 (length report_parts)) report_parts
     ++ [(current demo_world, Markdown "</div>" true)])%list.
Proof.
  apply (display_report_parts_in_name_order last_name
           (Pathlib.PurePath "reports/bike/2011-01-29_2011-02-04/model_performance")
           demo_world ["target.html"; "Summary.html"; "errors.html"]);
    [reflexivity | done | by repeat constructor | by repeat constructor | reflexivity].
Defined.

(** X2. When some entry of the directory cannot be opened and read as text
    (it is not a regular file, the process may not read it, or its bytes do
    not decode in the encoding of the locale), [display_report] stops at the
    first such entry in ascending order of name: it raises the error of
    opening or reading that entry, having opened the entries before it and
    that entry and none after, and having drawn the tabs and the texts of
    the entries before it. *)
Theorem display_report_stops_at_first_bad_part (get_report_name : Path -> Text)
    (p : Path) (w : world) (listing good rest : list Text) (bad : Text) :
  fs w !! p = Some (Directory listing) ->
  Forall (fun n => Pathlib.valid_name n = true) listing ->
  Py.sorted String.ltb listing = (good ++ bad :: rest)%list ->
  Forall (fun n => reads LocaleDefault w (p </> n) = true) good ->
  reads LocaleDefault w (p </> bad) = false ->
  let w' := snd (display_report_body get_report_name p w) in
  fst (display_report_body get_report_name p w)
  = Raise (read_error LocaleDefault w (p </> bad)) /\
  new_accesses w w'
  = ([Stat p; Stat p; Listdir p]
     ++ map (fun n => Open (p </> n) ModeR) (good ++ [bad]))%list /\
  new_elements w w'
  = ([(current w, Markdown ("<div class=" +:+ Py.quoted "stReport" +:+ ">") true);
      (current w, Tabs (map (fun n => "📈 " +:+ get_report_name (p </> n))
                          (good ++ bad :: rest)))]
     ++ zip_with (fun i n => (Tab (current w) i,
                              Html (file_text LocaleDefault w (p </> n)) 1000 800 true))
          (seq 0 (length good)) good)%list.
Proof.
  intros Hp Hvalid Hsorted Hgood Hbad.
  assert (Hne : listing <> []).
  { intros ->. simpl in Hsorted. by destruct good. }
  assert (Hbody : display_report_body get_report_name p w
    = (Raise (read_error LocaleDefault w (p </> bad)),
       extend w
         ([Stat p; Stat p; Listdir p]
          ++ map (fun n => Open (p </> n) ModeR) (good ++ [bad]))
         ([(current w, Markdown ("<div class=" +:+ Py.quoted "stReport" +:+ ">") true);
           (current w, Tabs (map (fun n => "📈 " +:+ get_report_name (p </> n))
                               (good ++ bad :: rest)))]
          ++ zip_with (fun i n => (Tab (current w) i,
                                   Html (file_text LocaleDefault w (p </> n)) 1000 800 true))
               (seq 0 (length good)) good))).
  { rewrite (body_nonempty_directory get_report_name p w listing Hp Hne). cbv zeta.
    rewrite (sorted_children p listing Hvalid), Hsorted.
    assert (Hparts : map (fun n => p </> n) (good ++ bad :: rest)
                     = (map (fun n => p </> n) good
                        ++ (p </> bad) :: map (fun n => p </> n) rest)%list)
      by (by rewrite map_app).
    rewrite Hparts, zip_tabs_app, read_parts_first_bad.
    - rewrite snd_zip_tabs, drawn_parts_zip, extend_extend, <- Hparts.
      rewrite map_map.
      replace (map (fun q => Open q ModeR) (map (fun n => p </> n) good ++ [p </> bad]))
        with (map (fun n => Open (p </> n) ModeR) (good ++ [bad]))
        by (by rewrite !map_app, map_map).
      reflexivity.
    - rewrite snd_zip_tabs. by apply Forall_map.
    - done. }
  cbv zeta. rewrite Hbody. cbn [fst snd].
  split; [done|]. split; [apply new_accesses_extend | apply new_elements_extend].
Qed.

Lemma display_report_stops_at_first_bad_part_witness :
  let p := Pathlib.PurePath "reports/bike/2011-02-12_2011-02-18" in
  let w' := snd (display_report_body last_name p demo_world) in
  fst (display_report_body last_name p demo_world)
  = Raise (read_error LocaleDefault demo_world (p </> "b.html")) /\
  new_accesses demo_world w'
  = ([Stat p; Stat p; Listdir p]
     ++ map (fun n => Open (p </> n) ModeR) (["a.html"] ++ ["b.html"]))%list /\
  new_elements demo_world w'
  = ([(current demo_world, Markdown ("<div class=" +:+ Py.quoted "stReport" +:+ ">") true);
      (current demo_world, Tabs (map (fun n => "📈 " +:+ last_name (p </> n))
                                   (["a.html"] ++ "b.html" :: ["c.html"])))]
     ++ zip_with (fun i n => (Tab (current demo_world) i,
                              Html (file_text LocaleDefault demo_world (p </> n))
                                1000 800 true))
          (seq 0 (length ["a.html"])) ["a.html"])%list.
Proof.
  apply (display_report_stops_at_first_bad_part last_name
           (Pathlib.PurePath "reports/bike/2011-02-12_2011-02-18") demo_world
           ["c.html"; "a.html"; "b.html"] ["a.html"] ["c.html"] "b.html");
    [reflexivity | by repeat constructor | reflexivity | by repeat constructor
    | reflexivity].
Defined.

Example display_report_stops_at_first_bad_part_example :
  let p := Pathlib.PurePath "reports/bike/2011-02-12_2011-02-18" in
  let r := display_report_body last_name p demo_world in
  fst r = Raise (PermissionError (p </> "b.html")) /\
  new_accesses demo_world (snd r)
  = [Stat p; Stat p; Listdir p; Open (p </> "a.html") ModeR; Open (p </> "b.html") ModeR] /\
  new_elements demo_world (snd r)
  = [(Main, Markdown ("<div class=" +:+ Py.quoted "stReport" +:+ ">") true);
     (Main, Tabs ["📈 a.html"; "📈 b.html"; "📈 c.html"]);
     (Tab Main 0, Html "<html>a</html>" 1000 800 true)].
Proof. vm_compute. repeat apply conj; reflexivity. Qed.

(** X3. The order in which [os.listdir] reports the entries does not show:
    with the same names listed in another order, [display_report] returns
    the same list, or raises the same exception. *)
Theorem display_report_listing_order_irrelevant (get_report_name : Path -> Text)
    (p : Path) (w : world) (listing listing' : list Text) :
  fs w !! p = Some (Directory listing) ->
  Forall (fun n => Pathlib.valid_name n = true) listing ->
  Permutation listing listing' ->
  fst (display_report_body get_report_name p
         (set_fs (<[p := Directory listing']> (fs w)) w))
  = fst (display_report_body get_report_name p w).
Proof.
  intros Hp Hvalid Hperm.
  set (w2 := set_fs (<[p := Directory listing']> (fs w)) w).
  assert (Hp2 : fs w2 !! p = Some (Directory listing')) by apply lookup_insert_eq.
  assert (Hvalid' : Forall (fun n => Pathlib.valid_name n = true) listing').
  { by eapply Permutation_Forall. }
  destruct (decide (listing = [])) as [->|Hne].
  { apply Permutation_nil_l in Hperm. subst listing'.
    by rewrite (body_empty_directory get_report_name p w2 Hp2),
               (body_empty_directory get_report_name p w Hp). }
  assert (Hne' : listing' <> []).
  { intros ->. apply Permutation_nil_r in Hperm. done. }
  rewrite (body_nonempty_directory get_report_name p w2 listing' Hp2 Hne').
  rewrite (body_nonempty_directory get_report_name p w listing Hp Hne). cbv zeta.
  rewrite (sorted_children p listing' Hvalid'), (sorted_children p listing Hvalid).
  rewrite <- (sorted_names_of_permutation listing listing' Hperm).
  set (sorted_names := Py.sorted String.ltb listing).
  set (report_parts := map (fun n => p </> n) sorted_names).
  match goal with
  | |- fst (match read_parts ?pairs ?acc ?wa with _ => _ end)
       = fst (match read_parts _ _ ?wb with _ => _ end) =>
      pose proof (read_parts_fst_agree pairs acc wa wb) as Hagree
  end.
  rewrite snd_zip_tabs in Hagree.
  lapply Hagree.
  - clear Hagree. intros Hagree.
    destruct (read_parts _ _ _) as [[rc|e] wa'], (read_parts _ _ _) as [[rc'|e'] wb'];
      simpl in *; congruence.
  - intros q Hq. unfold report_parts in Hq.
    apply list_elem_of_In, list_elem_of_fmap in Hq as (n & -> & Hn).
    unfold w2. cbn [fs extend set_fs]. apply lookup_insert_ne.
    intros Heq. apply (truediv_ne p n); [|done].
    unfold sorted_names in Hn. rewrite (sorted_perm String.ltb listing) in Hn.
    by eapply Forall_forall in Hvalid.
Qed.

Lemma display_report_listing_order_irrelevant_witness :
  fst (display_report_body last_name
         (Pathlib.PurePath "reports/bike/2011-01-29_2011-02-04/model_performance")
         (set_fs (<[Pathlib.PurePath "reports/bike/2011-01-29_2011-02-04/model_performance"
                    := Directory ["errors.html"; "target.html"; "Summary.html"]]>
                    (fs demo_world)) demo_world))
  = fst (display_report_body last_name
           (Pathlib.PurePath "reports/bike/2011-01-29_2011-02-04/model_performance")
           demo_world).
Proof.
  apply (display_report_listing_order_irrelevant last_name
           (Pathlib.PurePath "reports/bike/2011-01-29_2011-02-04/model_performance")
           demo_world ["target.html"; "Summary.html"; "errors.html"]
           ["errors.html"; "target.html"; "Summary.html"]);
    [reflexivity | by repeat constructor |].
  apply (perm_trans (l' := ["Summary.html"; "target.html"; "errors.html"]));
    [apply perm_swap|].
  apply (perm_trans (l' := ["Summary.html"; "errors.html"; "target.html"]));
    [apply perm_skip, perm_swap|].
  apply (perm_trans (l' := ["errors.html"; "Summary.html"; "target.html"]));
    [apply perm_swap|].
  apply perm_skip, perm_swap.
Defined.

(** ** Every way the body can go *)

Lemma in_report_parts (p : Path) (listing : list Text) (q : Path) :
  In q (Py.sorted Pathlib.ltb (map (fun report_part => p </> report_part) listing)) ->
  exists n, In n listing /\ q = p </> n.
Proof.
  intros Hq. apply list_elem_of_In in Hq. rewrite sorted_perm in Hq.
  apply list_elem_of_fmap in Hq as (n & -> & Hn).
  exists n. split; [by apply list_elem_of_In|done].
Qed.

Lemma body_cases (get_report_name : Path -> Text) (p : Path) (w : world) :
  let opening := (current w, Markdown ("<div class=" +:+ Py.quoted "stReport" +:+ ">") true) in
  let closing := (current w, Markdown "</div>" true) in
  (is_regular w p = true /\ reads Utf8 w p = true /\
   display_report_body get_report_name p w
   = (Ok (Contents [file_text Utf8 w p]),
      extend w [Stat p; Open p ModeR]
        [opening; (current w, Html (file_text Utf8 w p) 1000 800 true); closing])) \/
  (is_regular w p = true /\ reads Utf8 w p = false /\
   display_report_body get_report_name p w
   = (Raise (read_error Utf8 w p), extend w [Stat p; Open p ModeR] [opening])) \/
  (fs w !! p = None /\
   display_report_body get_report_name p w
   = (Ok (ErrorValue (EntityNotFoundError "🔍 No reports found")),
      extend w [Stat p; Stat p] [opening; closing])) \/
  (fs w !! p = Some LockedDirectory /\
   display_report_body get_report_name p w
   = (Raise (PermissionError p), extend w [Stat p; Stat p; Listdir p] [opening])) \/
  (fs w !! p = Some (Directory []) /\
   display_report_body get_report_name p w
   = (Raise (StreamlitAPIException
        "The input argument to st.tabs must contain at least one tab label."),
      extend w [Stat p; Stat p; Listdir p] [opening])) \/
  (exists listing labels ops drawn,
     fs w !! p = Some (Directory listing) /\ listing <> [] /\
     Forall (fun op => exists n, In n listing /\ op = Open (p </> n) ModeR) ops /\
     Forall (fun ce => exists html, snd ce = Html html 1000 800 true) drawn /\
     ((exists report_contents,
         display_report_body get_report_name p w
         = (Ok (Contents report_contents),
            extend w ([Stat p; Stat p; Listdir p] ++ ops)
              ([opening; (current w, Tabs labels)] ++ drawn ++ [closing]))) \/
      (exists n,
         In n listing /\ reads LocaleDefault w (p </> n) = false /\
         display_report_body get_report_name p w
         = (Raise (read_error LocaleDefault w (p </> n)),
            extend w ([Stat p; Stat p; Listdir p] ++ ops)
              ([opening; (current w, Tabs labels)] ++ drawn))))).
Proof.
  intros opening closing.
  destruct (fs w !! p) as [[f|listing|]|] eqn:Hp.
  - assert (Hreg : is_regular w p = true) by (unfold is_regular; by rewrite Hp).
    destruct (reads Utf8 w p) eqn:Hr.
    + left. split; [done|]. split; [done|]. by apply body_file.
    + right. left. split; [done|]. split; [done|]. by apply body_file_fails.
  - do 4 right.
    destruct (decide (listing = [])) as [->|Hne].
    + left. split; [done|]. by apply body_empty_directory.
    + right.
      pose proof (body_nonempty_directory get_report_name p w listing Hp Hne) as Hbody.
      cbv zeta in Hbody.
      set (report_parts :=
             Py.sorted Pathlib.ltb (map (fun report_part => p </> report_part) listing)) in *.
      set (labels := map (fun q => "📈 " +:+ get_report_name q) report_parts) in *.
      set (pairs := zip (map (Tab (current w)) (seq 0 (length report_parts))) report_parts) in *.
      set (w1 := extend w [Stat p; Stat p; Listdir p]
                   [(current w, Markdown ("<div class=" +:+ Py.quoted "stReport" +:+ ">") true);
                    (current w, Tabs labels)]) in *.
      destruct (read_parts_effects pairs [] w1) as (ops & drawn & Hs & Hops & Hdrawn).
      assert (Hnames : Forall (fun op => exists n, In n listing /\ op = Open (p </> n) ModeR) ops).
      { eapply Forall_impl; [exact Hops|]. intros op (q & Hq & ->).
        unfold pairs in Hq. rewrite snd_zip_tabs in Hq.
        apply in_report_parts in Hq as (n & Hn & ->). by exists n. }
      exists listing, labels, ops, drawn.
      split; [done|]. split; [done|]. split; [done|]. split; [done|].
      destruct (read_parts pairs [] w1) as [[rc|e] w2] eqn:Hrun; simpl in Hs; subst w2.
      * left. exists rc. rewrite Hbody. unfold w1. rewrite !extend_extend.
        simpl app. rewrite app_nil_r. reflexivity.
      * right. destruct (read_parts_raise_inv _ _ _ _ _ Hrun) as (q & Hq & Hbad & ->).
        unfold pairs in Hq. rewrite snd_zip_tabs in Hq.
        apply in_report_parts in Hq as (n & Hn & ->).
        exists n. split; [done|]. split; [done|].
        rewrite Hbody. unfold w1. rewrite !extend_extend. reflexivity.
  - do 3 right. left. split; [done|]. by apply body_locked_directory.
  - do 2 right. left. split; [done|]. by apply body_missing.
Qed.



(** X5. The first element [display_report] draws is the opening [div] of
    the report; the closing [div] is the last element drawn when the call
    returns, and is not drawn at all when the call raises. *)
Theorem display_report_div_closed_iff_returns (get_report_name : Path -> Text)
    (p : Path) (w : world) :
  let w' := snd (display_report_body get_report_name p w) in
  head (new_elements w w')
  = Some (current w, Markdown ("<div class=" +:+ Py.quoted "stReport" +:+ ">") true) /\
  match fst (display_report_body get_report_name p w) with
  | Ok _ => last (new_elements w w') = Some (current w, Markdown "</div>" true)
  | Raise _ => forall c, ~ In (c, Markdown "</div>" true) (new_elements w w')
  end.
Proof.
  cbv zeta.
  destruct (body_cases get_report_name p w)
    as [(_ & _ & Hb)|[(_ & _ & Hb)|[(_ & Hb)|[(_ & Hb)|[(_ & Hb)|
        (listing & labels & ops & drawn & _ & _ & _ & Hdrawn
         & [(rc & Hb)|(n & _ & _ & Hb)])]]]]];
    rewrite Hb; cbn [fst snd]; rewrite new_elements_extend; (split; [done|]).
  - done.
  - intros c [H|[]]. vm_compute in H. discriminate.
  - done.
  - intros c [H|[]]. vm_compute in H. discriminate.
  - intros c [H|[]]. vm_compute in H. discriminate.
  - rewrite app_assoc. apply last_snoc.
  - intros c Hin. apply in_app_or in Hin as [[H|[H|[]]]|Hin].
    + vm_compute in H. discriminate.
    + discriminate.
    + eapply Forall_forall in Hdrawn as (html & Hhtml); [|by apply list_elem_of_In].
      simpl in Hhtml. discriminate.
Qed.

(** X6. Every access [display_report] makes to the filesystem is to the
    report path itself (a look, a listing, a read) or a read of an entry
    listed in it. *)
Theorem display_report_reads_within_report (get_report_name : Path -> Text)
    (p : Path) (w : world) :
  Forall (access_within w p)
    (new_accesses w (snd (display_report get_report_name p w))).
Proof.
  assert (Hbody : Forall (access_within w p)
            (new_accesses w (snd (display_report_body get_report_name p w)))).
  { unfold access_within.
    destruct (body_cases get_report_name p w)
      as [(_ & _ & Hb)|[(_ & _ & Hb)|[(_ & Hb)|[(_ & Hb)|[(_ & Hb)|
          (listing & labels & ops & drawn & Hp & _ & Hops & _
           & [(rc & Hb)|(n & _ & _ & Hb)])]]]]];
      rewrite Hb; cbn [snd]; rewrite new_accesses_extend.
    - repeat (apply Forall_cons_2; [auto 6|]). apply Forall_nil_2.
    - repeat (apply Forall_cons_2; [auto 6|]). apply Forall_nil_2.
    - repeat (apply Forall_cons_2; [auto 6|]). apply Forall_nil_2.
    - repeat (apply Forall_cons_2; [auto 6|]). apply Forall_nil_2.
    - repeat (apply Forall_cons_2; [auto 6|]). apply Forall_nil_2.
    - unfold listed. rewrite Hp. apply Forall_app. split.
      + repeat (apply Forall_cons_2; [auto 6|]). apply Forall_nil_2.
      + eapply Forall_impl; [exact Hops|]. intros op Hop. by do 3 right.
    - unfold listed. rewrite Hp. apply Forall_app. split.
      + repeat (apply Forall_cons_2; [auto 6|]). apply Forall_nil_2.
      + eapply Forall_impl; [exact Hops|]. intros op Hop. by do 3 right. }
  unfold display_report.
  destruct (cache_data_cases (display_report_body get_report_name) p w)
    as [(c & Hc & Hrun)|[(Hc & v & w' & Hb & Hrun)|(Hc & e' & w' & Hb & Hrun)]];
    rewrite Hrun; cbn [snd].
  - rewrite new_accesses_extend. constructor.
  - by rewrite Hb in Hbody.
  - by rewrite Hb in Hbody.
Qed.

(** ** The sidebar *)

Lemma open_binary_ok (p : Path) (w : world) (f : file) :
  fs w !! p = Some (RegFile f) ->
  readable f = true ->
  Os.open_binary p w = (Ok f, extend w [Open p ModeR] []).
Proof.
  intros Hp Hr. unfold Os.open_binary. rewrite (bind_Ok _ _ _ _ _ (log_run _ w)).
  rewrite bind_run. unfold Os.lookup, gets. rewrite fs_extend, Hp. cbn.
  by rewrite Hr.
Qed.

Lemma open_binary_fails (p : Path) (w : world) :
  is_regular w p = false ->
  Os.open_binary p w = (Raise (open_error w p), extend w [Open p ModeR] []).
Proof.
  unfold is_regular, open_error. intros Hp.
  unfold Os.open_binary. rewrite (bind_Ok _ _ _ _ _ (log_run _ w)).
  rewrite bind_run. unfold Os.lookup, gets. rewrite fs_extend.
  by destruct (fs w !! p) as [[f|listing|]|].
Qed.

(** X7. With the logo in place, a regular file that the process may read and
    in which PIL identifies an image, [display_sidebar_header] opens it once
    and draws six elements, all of them in the sidebar whatever block the
    call is made in: the logo between its [div]s, the two links and the
    rule. *)
Theorem display_sidebar_header_draws_in_sidebar (w : world) (f : file) (data : Text) :
  fs w !! logo_path = Some (RegFile f) ->
  readable f = true ->
  picture f = Some data ->
  display_sidebar_header w
  = (Ok tt,
     extend w [Open logo_path ModeR]
       [(Sidebar, Markdown ("<div class=" +:+ Py.quoted "logo-container" +:+ ">") true);
        (Sidebar, Picture (mkImage "static/logo.png" data) true);
        (Sidebar, Markdown "</div>" true);
        (Sidebar, Markdown (sidebar_link repo_link "📚 Source code") true);
        (Sidebar, Markdown (sidebar_link evidently_docs "📖 Evidently docs") true);
        (Sidebar, Markdown "<hr style='margin: 2rem 0;'>" true)]).
Proof.
  intros Hlogo Hr Hpic. unfold display_sidebar_header, Image_open.
  rewrite (bind_run (Os.open_binary _ ≫= _)).
  rewrite (bind_Ok _ _ _ _ _ (open_binary_ok logo_path w f Hlogo Hr)).
  rewrite Hpic. unfold mret at 1, M_ret at 1. cbv beta iota.
  rewrite (within_run Sidebar _ (extend w [Open logo_path ModeR] []) (Ok tt) []
             [(Sidebar, Markdown ("<div class=" +:+ Py.quoted "logo-container" +:+ ">") true);
              (Sidebar, Picture (mkImage "static/logo.png" data) true);
              (Sidebar, Markdown "</div>" true);
              (Sidebar, Markdown (sidebar_link repo_link "📚 Source code") true);
              (Sidebar, Markdown (sidebar_link evidently_docs "📖 Evidently docs") true);
              (Sidebar, Markdown "<hr style='margin: 2rem 0;'>" true)]).
  - by rewrite extend_extend.
  - unfold St.image.
    rewrite (bind_Ok _ _ _ _ _ (markdown_run _ _ _)).
    rewrite (bind_Ok _ _ _ _ _ (draw_run _ _)), extend_extend.
    rewrite (bind_Ok _ _ _ _ _ (markdown_run _ _ _)), extend_extend.
    rewrite (bind_Ok _ _ _ _ _ (markdown_run _ _ _)), extend_extend.
    rewrite (bind_Ok _ _ _ _ _ (markdown_run _ _ _)), extend_extend.
    rewrite markdown_run, extend_extend. reflexivity.
Qed.

Lemma display_sidebar_header_draws_in_sidebar_witness :
  display_sidebar_header (set_blocks [Tab Main 1] demo_world)
  = (Ok tt,
     extend (set_blocks [Tab Main 1] demo_world) [Open logo_path ModeR]
       [(Sidebar, Markdown ("<div class=" +:+ Py.quoted "logo-container" +:+ ">") true);
        (Sidebar, Picture (mkImage "static/logo.png" "logo pixels") true);
        (Sidebar, Markdown "</div>" true);
        (Sidebar, Markdown (sidebar_link repo_link "📚 Source code") true);
        (Sidebar, Markdown (sidebar_link evidently_docs "📖 Evidently docs") true);
        (Sidebar, Markdown "<hr style='margin: 2rem 0;'>" true)]).
Proof.
  apply (display_sidebar_header_draws_in_sidebar (set_blocks [Tab Main 1] demo_world)
           (image_file "logo pixels") "logo pixels");
    reflexivity.
Defined.

(** X17. A logo file in which PIL identifies no image stops the sidebar
    header: the file is opened, nothing is drawn, and the call raises PIL's
    [UnidentifiedImageError]. *)
Theorem display_sidebar_header_not_an_image (w : world) (f : file) :
  fs w !! logo_path = Some (RegFile f) ->
  readable f = true ->
  picture f = None ->
  display_sidebar_header w
  = (Raise (UnidentifiedImageError "static/logo.png"),
     extend w [Open logo_path ModeR] []).
Proof.
  intros Hlogo Hr Hpic. unfold display_sidebar_header, Image_open.
  apply bind_Raise. rewrite (bind_Ok _ _ _ _ _ (open_binary_ok logo_path w f Hlogo Hr)).
  by rewrite Hpic.
Qed.

Lemma display_sidebar_header_not_an_image_witness :
  let w := set_fs (<[logo_path := RegFile (text_file "<html>a page</html>")]> (fs demo_world))
             demo_world in
  display_sidebar_header w
  = (Raise (UnidentifiedImageError "static/logo.png"),
     extend w [Open logo_path ModeR] []).
Proof.
  apply (display_sidebar_header_not_an_image
           (set_fs (<[logo_path := RegFile (text_file "<html>a page</html>")]> (fs demo_world))
              demo_world)
           (text_file "<html>a page</html>"));
    [apply lookup_insert_eq | reflexivity | reflexivity].
Defined.

(** X8. Without a regular file at the logo path, [display_sidebar_header]
    raises the error of opening it and draws nothing: the logo is opened
    before the sidebar block is entered. *)
Theorem display_sidebar_header_without_logo (w : world) :
  is_regular w logo_path = false ->
  display_sidebar_header w
  = (Raise (open_error w logo_path), extend w [Open logo_path ModeR] []).
Proof.
  intros Hlogo. unfold display_sidebar_header, Image_open.
  apply bind_Raise, bind_Raise. by apply open_binary_fails.
Qed.

Lemma display_sidebar_header_without_logo_witness :
  display_sidebar_header bare_world
  = (Raise (open_error bare_world logo_path), extend bare_world [Open logo_path ModeR] []).
Proof.
  apply (display_sidebar_header_without_logo bare_world). reflexivity.
Defined.

(** ** Blocks and traces *)

Lemma effects_only_appends {A : Type} (P : fs_op -> Prop) (m : M A) :
  effects P m -> only_appends m.
Proof.
  intros Hm w. destruct (Hm w) as (ops & drawn & -> & _). unfold extend. simpl.
  split; [done|]. split; by apply prefix_app_r.
Qed.

Lemma effects_no_access {A : Type} (m : M A) (w : world) :
  effects (fun _ => False) m -> new_accesses w (snd (m w)) = [].
Proof.
  intros Hm. destruct (Hm w) as (ops & drawn & -> & Hops).
  rewrite new_accesses_extend. destruct ops as [|op ops]; [done|].
  by apply Forall_cons in Hops as [[] _].
Qed.

Lemma effects_select_project (P : fs_op -> Prop) (projects : list Text) :
  effects P (select_project projects).
Proof. unfold select_project. destruct (is_empty projects); auto with effects. Qed.

Lemma effects_select_report (P : fs_op -> Prop) (report_names : list Text) :
  effects P (select_report report_names).
Proof. unfold select_report. destruct (is_empty report_names); auto with effects. Qed.

Lemma effects_select_period (P : fs_op -> Prop) (format_func : Text -> Text)
    (periods : list Text) :
  effects P (select_period format_func periods).
Proof. unfold select_period. destruct (is_empty periods); auto with effects. Qed.

Lemma effects_display_header (P : fs_op -> Prop) (format_func : Text -> Text)
    (project_name period report_name : Text) :
  effects P (display_header format_func project_name period report_name).
Proof.
  unfold display_header, St.markdown, St.caption, St.header. auto 8 with effects.
Qed.

Lemma effects_set_page_container_style (P : fs_op -> Prop) :
  effects P set_page_container_style.
Proof. unfold set_page_container_style, St.markdown. auto with effects. Qed.

Lemma effects_display_sidebar_header :
  effects (fun op => op = Open logo_path ModeR) display_sidebar_header.
Proof.
  unfold display_sidebar_header, St.markdown, St.image.
  apply effects_bind.
  - by apply effects_Image_open.
  - auto 10 with effects.
Qed.

Lemma only_appends_display_report (get_report_name : Path -> Text) (p : Path) :
  only_appends (display_report get_report_name p).
Proof.
  intros w. unfold display_report.
  pose proof (effects_only_appends _ _ (effects_body get_report_name p) w) as Hbody.
  destruct (cache_data_cases (display_report_body get_report_name) p w)
    as [(c & Hc & Hrun)|[(Hc & v & w' & Hb & Hrun)|(Hc & e' & w' & Hb & Hrun)]];
    rewrite Hrun; cbn [snd].
  - unfold extend. simpl. split; [done|]. split; by apply prefix_app_r.
  - by rewrite Hb in Hbody.
  - by rewrite Hb in Hbody.
Qed.

(** X9. Every function of the module leaves the enclosing [with] blocks as
    it found them, also when it raises inside a block, and only appends to
    what has been drawn and to the trace of accesses. *)
Theorem module_only_appends (get_report_name : Path -> Text)
    (period_dir_to_dates_range : Text -> Text) :
  only_appends set_page_container_style /\
  only_appends display_sidebar_header /\
  (forall projects, only_appends (select_project projects)) /\
  (forall periods, only_appends (select_period period_dir_to_dates_range periods)) /\
  (forall report_names, only_appends (select_report report_names)) /\
  (forall project_name period report_name,
     only_appends (display_header period_dir_to_dates_range project_name period report_name)) /\
  (forall report_path, only_appends (display_report get_report_name report_path)).
Proof.
  repeat apply conj.
  - apply (effects_only_appends (fun _ => True)), effects_set_page_container_style.
  - eapply effects_only_appends, effects_display_sidebar_header.
  - intros projects. apply (effects_only_appends (fun _ => True)), effects_select_project.
  - intros periods. apply (effects_only_appends (fun _ => True)), effects_select_period.
  - intros names. apply (effects_only_appends (fun _ => True)), effects_select_report.
  - intros project_name period report_name.
    apply (effects_only_appends (fun _ => True)), effects_display_header.
  - apply only_appends_display_report.
Qed.

(** X10. The style function, the three selectors and the header make no
    access to the filesystem, and the sidebar header makes none other than
    opening the logo file for reading. *)
Theorem widgets_make_no_filesystem_access (period_dir_to_dates_range : Text -> Text)
    (w : world) :
  new_accesses w (snd (set_page_container_style w)) = [] /\
  (forall projects, new_accesses w (snd (select_project projects w)) = []) /\
  (forall periods,
     new_accesses w (snd (select_period period_dir_to_dates_range periods w)) = []) /\
  (forall report_names, new_accesses w (snd (select_report report_names w)) = []) /\
  (forall project_name period report_name,
     new_accesses w
       (snd (display_header period_dir_to_dates_range project_name period report_name w))
     = []) /\
  Forall (fun op => op = Open logo_path ModeR)
    (new_accesses w (snd (display_sidebar_header w))).
Proof.
  repeat apply conj.
  - apply effects_no_access, effects_set_page_container_style.
  - intros projects. apply effects_no_access, effects_select_project.
  - intros periods. apply effects_no_access, effects_select_period.
  - intros names. apply effects_no_access, effects_select_report.
  - intros project_name period report_name.
    apply effects_no_access, effects_display_header.
  - destruct (effects_display_sidebar_header w) as (ops & drawn & -> & Hops).
    by rewrite new_accesses_extend.
Qed.

(** ** More on the selectors *)

(** X11. When the picked project is a plain directory name (not empty, no
    slash, not a dot name), the path [select_project] returns has that name
    as its only component and prints back as the name. *)
Theorem select_project_path_of_name (projects : list Text) (w : world) (name : Text) :
  projects !! selected w "💼 Select project" = Some name ->
  Pathlib.valid_name name = true ->
  exists path,
    fst (select_project projects w) = Ok path /\
    root path = EmptyString /\ names path = [name] /\ Pathlib.str path = name.
Proof.
  intros Hsel Hname. exists (mkPath EmptyString [name]).
  rewrite (select_project_run projects w name Hsel). cbn [fst].
  by rewrite (PurePath_valid_name name Hname).
Qed.

Lemma select_project_path_of_name_witness :
  exists path,
    fst (select_project ["bike"; "taxi"] demo_world) = Ok path /\
    root path = EmptyString /\ names path = ["bike"] /\ Pathlib.str path = "bike".
Proof.
  apply (select_project_path_of_name ["bike"; "taxi"] demo_world "bike"); reflexivity.
Defined.

(** X12. The header shows the period the way the select box showed it: when
    the period returned by [select_period] is handed to [display_header],
    the period caption is the label of the picked option, behind its
    prefix. *)
Theorem header_period_matches_select_box (period_dir_to_dates_range : Text -> Text)
    (periods : list Text) (project_name report_name period : Text) (w : world) :
  fst (select_period period_dir_to_dates_range periods w) = Ok period ->
  let w1 := snd (select_period period_dir_to_dates_range periods w) in
  let w2 := snd (display_header period_dir_to_dates_range
                   project_name period report_name w1) in
  exists shown label,
    new_elements w w1 = [(Sidebar, Selectbox "📆 Select period" shown)] /\
    shown !! selected w "📆 Select period" = Some label /\
    last (text_lines (new_elements w1 w2)) = Some ("📅 Period: " +:+ label).
Proof.
  intros Hret. cbv zeta.
  assert (Hsel : periods !! selected w "📆 Select period" = Some period).
  { unfold select_period in Hret. destruct (is_empty periods); [done|].
    rewrite bind_run in Hret. unfold St.selectbox in Hret.
    rewrite bind_run in Hret. unfold gets in Hret.
    destruct (periods !! selected w "📆 Select period") as [x|]; [|done].
    rewrite (bind_Ok _ _ _ _ _ (draw_in_run _ _ _)) in Hret.
    by injection Hret as ->. }
  rewrite (select_period_run period_dir_to_dates_range periods w period Hsel).
  cbn [snd]. rewrite new_elements_extend.
  exists (map period_dir_to_dates_range periods), (period_dir_to_dates_range period).
  split; [done|]. split; [by rewrite list_lookup_fmap, Hsel|].
  destruct (effects_display_header (fun _ => True) period_dir_to_dates_range
              project_name period report_name (extend w []
                [(Sidebar, Selectbox "📆 Select period"
                             (map period_dir_to_dates_range periods))]))
    as (ops & drawn & Hs & _).
  unfold display_header, St.caption, St.header in *.
  rewrite (bind_Ok _ _ _ _ _ (markdown_run _ _ _)) in *.
  rewrite (bind_Ok _ _ _ _ _ (draw_run _ _)), extend_extend in *.
  rewrite (bind_Ok _ _ _ _ _ (draw_run _ _)), extend_extend in *.
  rewrite (bind_Ok _ _ _ _ _ (draw_run _ _)), extend_extend in *.
  rewrite markdown_run, extend_extend in *. cbn [snd].
  by rewrite new_elements_extend.
Qed.

Lemma header_period_matches_select_box_witness :
  let periods := ["2011-01-29_2011-02-04"; "2011-02-05_2011-02-11"] in
  let w1 := snd (select_period dash_dates periods demo_world) in
  let w2 := snd (display_header dash_dates "bike" "2011-01-29_2011-02-04" "data_drift" w1) in
  exists shown label,
    new_elements demo_world w1 = [(Sidebar, Selectbox "📆 Select period" shown)] /\
    shown !! selected demo_world "📆 Select period" = Some label /\
    last (text_lines (new_elements w1 w2)) = Some ("📅 Period: " +:+ label).
Proof.
  apply (header_period_matches_select_box dash_dates
           ["2011-01-29_2011-02-04"; "2011-02-05_2011-02-11"]
           "bike" "data_drift" "2011-01-29_2011-02-04" demo_world).
  reflexivity.
Defined.

(** ** More on the store *)



(** X14. A call that raises stores nothing: the store is left as it was,
    without an entry for the path, so the next call with that path runs the
    body again. *)
Theorem display_report_raise_is_not_memoized (get_report_name : Path -> Text)
    (p : Path) (w : world) (e : exn) :
  fst (display_report get_report_name p w) = Raise e ->
  cache (snd (display_report get_report_name p w)) = cache w /\
  cache (snd (display_report get_report_name p w)) !! p = None.
Proof.
  unfold display_report. intros Hraise.
  destruct (cache_data_cases (display_report_body get_report_name) p w)
    as [(c & _ & Hrun)|[(_ & v & w' & _ & Hrun)|(Hc & e' & w' & Hbody & Hrun)]];
    rewrite Hrun in *; simpl in Hraise; [done|done|].
  cbn [snd].
  destruct (effects_body get_report_name p w) as (ops & drawn & Hs & _).
  rewrite Hbody in Hs. simpl in Hs. subst w'. by split.
Qed.

Lemma display_report_raise_is_not_memoized_witness :
  cache (snd (display_report last_name
                (Pathlib.PurePath "reports/bike/2011-02-05_2011-02-11") demo_world))
  = cache demo_world /\
  cache (snd (display_report last_name
                (Pathlib.PurePath "reports/bike/2011-02-05_2011-02-11") demo_world))
  !! Pathlib.PurePath "reports/bike/2011-02-05_2011-02-11" = None.
Proof.
  apply (display_report_raise_is_not_memoized last_name
           (Pathlib.PurePath "reports/bike/2011-02-05_2011-02-11") demo_world
           (IsADirectoryError (Pathlib.PurePath "reports/bike/2011-02-05_2011-02-11"
                               </> "nested"))).
  vm_compute. reflexivity.
Defined.

(** X15. Storing the result for one path leaves the entries of all other
    paths as they were. *)
Theorem display_report_keeps_other_entries (get_report_name : Path -> Text)
    (p q : Path) (w : world) :
  q <> p ->
  cache (snd (display_report get_report_name p w)) !! q = cache w !! q.
Proof.
  intros Hne. unfold display_report.
  destruct (effects_body get_report_name p w) as (ops & drawn & Hs & _).
  destruct (cache_data_cases (display_report_body get_report_name) p w)
    as [(c & _ & Hrun)|[(_ & v & w' & Hbody & Hrun)|(_ & e' & w' & Hbody & Hrun)]];
    rewrite Hrun; cbn [snd]; [done| |].
  - rewrite Hbody in Hs. simpl in Hs. subst w'. cbn [cache set_cache extend].
    by apply lookup_insert_ne.
  - rewrite Hbody in Hs. simpl in Hs. by subst w'.
Qed.

Lemma display_report_keeps_other_entries_witness :
  cache (snd (display_report last_name
                (Pathlib.PurePath "reports/bike/2011-01-29_2011-02-04/data_drift.html")
                demo_world))
  !! Pathlib.PurePath "reports/bike/later.html"
  = cache demo_world !! Pathlib.PurePath "reports/bike/later.html".
Proof.
  apply (display_report_keeps_other_entries last_name
           (Pathlib.PurePath "reports/bike/2011-01-29_2011-02-04/data_drift.html")
           (Pathlib.PurePath "reports/bike/later.html") demo_world).
  vm_compute. discriminate.
Defined.
